(** * The routes message of libfreelan: wire codec

    A shallow embedding of [libs/freelan/src/routes_message.cpp]: the visitor
    [ip_network_address_representation] (record writer and record reader),
    [routes_message::write], [routes_message::version],
    [routes_message::routes] and the two constructors.

    Conventions.
    - Memory is a flat map from addresses to octets; a pointer is an address.
      Nothing in the model stops a load or a store outside the region the
      caller announced: that is what the C++ does.
    - A [size_t] is an integer reduced modulo [2 ^ w]; the subtractions from
      the remaining length and the running sum of [write] are written with
      [sz_sub] and [sz_add].  The size of one record, at most 34, is written
      without reduction.
    - [throw std::runtime_error(msg)] is the outcome [Throw (runtime_error msg)].
      Memory written before the throw stays written.
    - The [while] loop of [routes_message::routes] is run with a fuel; a
      lemma below shows which fuel is always enough. *)

From Stdlib Require Import ZArith List String Bool Lia ListSet.
Import ListNotations.
Open Scope Z_scope.

(** ** Outcomes and exceptions *)

Inductive exn : Type :=
| runtime_error (what : string).

Inductive outcome (A : Type) : Type :=
| Ok (a : A)
| Throw (e : exn)
| Timeout.

Arguments Ok {A} a.
Arguments Throw {A} e.
Arguments Timeout {A}.

(** The four messages the file throws with. *)
Definition err_buf_len : exn := runtime_error "buf_len".
Definition err_prefix_length : exn :=
  runtime_error "Not enough bytes for the expected prefix length".
Definition err_ip_address : exn :=
  runtime_error "Not enough bytes for the expected IP address".
Definition err_unknown_type : exn :=
  runtime_error "Unknown route type in message".

(** The error kinds of the specification, as predicates on what is thrown.
    The source has no exception of its own for a short header. *)
Definition BufferTooSmall (e : exn) : Prop := e = err_buf_len.
Definition TruncatedRecord (e : exn) : Prop :=
  e = err_prefix_length \/ e = err_ip_address.
Definition UnknownRecordType (e : exn) : Prop := e = err_unknown_type.

(** ** Memory *)

Definition mem : Type := Z -> Z.

Definition upd (m : mem) (a v : Z) : mem :=
  fun x => if x =? a then v else m x.

(** [std::copy(bytes.begin(), bytes.end(), dest)] *)
Fixpoint store_bytes (bs : list Z) (dest : Z) (m : mem) : mem :=
  match bs with
  | [] => m
  | b :: bs' => store_bytes bs' (dest + 1) (upd m dest b)
  end.

(** [std::copy(src, src + n, bytes.begin())] *)
Fixpoint load_bytes (m : mem) (src : Z) (n : nat) : list Z :=
  match n with
  | O => []
  | S n' => m src :: load_bytes m (src + 1) n'
  end.

Definition mem_of_list (l : list Z) : mem :=
  fun a => if a <? 0 then 0 else nth (Z.to_nat a) l 0.

(** Computations that write memory and may throw. *)
Definition M (A : Type) : Type := mem -> mem * outcome A.

Definition ret {A} (a : A) : M A := fun m => (m, Ok a).
Definition throw {A} (e : exn) : M A := fun m => (m, Throw e).
Definition bind {A B} (c : M A) (k : A -> M B) : M B :=
  fun m =>
    match c m with
    | (m', Ok a) => k a m'
    | (m', Throw e) => (m', Throw e)
    | (m', Timeout) => (m', Timeout)
    end.
Definition store (f : mem -> mem) : M unit := fun m => (f m, Ok tt).

Notation "x <- c ;; k" := (bind c (fun x => k))
  (at level 61, c at next level, right associativity).
Notation "c ;;; k" := (bind c (fun _ => k))
  (at level 61, right associativity).

(** ** Routes (asiotap types, as this file uses them) *)

(** The template parameter [AddressType]. *)
Inductive AddressType : Type := address_v4 | address_v6.

(** [AddressType::bytes_type().size()] *)
Definition bytes_size (A : AddressType) : Z :=
  match A with address_v4 => 4 | address_v6 => 16 end.

Record base_ip_network_address : Type := mk_network_address {
  address : list Z;          (* address().to_bytes() *)
  prefix_length : Z
}.

Record base_ip_route : Type := mk_route {
  network_address : base_ip_network_address;
  gateway : option (list Z)  (* boost::optional<AddressType>, as bytes *)
}.

(** [asiotap::ip_route], a variant of the two instances. *)
Inductive ip_route : Type :=
| ipv4_route (ir : base_ip_route)
| ipv6_route (ir : base_ip_route).

Definition make_ip_route (A : AddressType) (ir : base_ip_route) : ip_route :=
  match A with address_v4 => ipv4_route ir | address_v6 => ipv6_route ir end.

Definition is_octet (b : Z) : Prop := 0 <= b < 256.

Definition wf_address (A : AddressType) (bs : list Z) : Prop :=
  Z.of_nat (List.length bs) = bytes_size A /\ Forall is_octet bs.

Definition wf_base_ip_route (A : AddressType) (ir : base_ip_route) : Prop :=
  wf_address A (address (network_address ir)) /\
  is_octet (prefix_length (network_address ir)) /\
  match gateway ir with Some g => wf_address A g | None => True end.

Definition wf_ip_route (r : ip_route) : Prop :=
  match r with
  | ipv4_route ir => wf_base_ip_route address_v4 ir
  | ipv6_route ir => wf_base_ip_route address_v6 ir
  end.

Definition ip_route_eq_dec (x y : ip_route) : {x = y} + {x <> y}.
Proof. repeat decide equality. Defined.

(** [asiotap::ip_route_set]: a set of routes; the list is its iteration
    order, and [insert] keeps one copy of each element. *)
Definition ip_route_set : Type := set ip_route.

Definition set_insert (r : ip_route) (s : ip_route_set) : ip_route_set :=
  set_add ip_route_eq_dec r s.

Definition same_set (s t : ip_route_set) : Prop :=
  forall r, In r s <-> In r t.

(** ** The record tags *)

Definition INAT_IPV4 : Z := 1.
Definition INAT_IPV4_GATEWAY : Z := 2.
Definition INAT_IPV6 : Z := 3.
Definition INAT_IPV6_GATEWAY : Z := 4.

Definition get_address_type (A : AddressType) (has_gateway : bool) : Z :=
  match A with
  | address_v4 => if has_gateway then INAT_IPV4_GATEWAY else INAT_IPV4
  | address_v6 => if has_gateway then INAT_IPV6_GATEWAY else INAT_IPV6
  end.

(** ** What the file takes from outside

    The base class [message] ([HEADER_LENGTH], [MT_ROUTES], [message::write],
    the constructor, [payload()], [length()]) is declared in another file, and
    so are the width of [size_t] and the byte order of the host. *)

Record message : Type := mk_message {
  payload : Z;   (* payload(): address of the first payload octet *)
  length : Z     (* length(): the declared payload length, a size_t *)
}.

Class Envelope : Type := {
  w : Z;
  little_endian : bool;
  HEADER_LENGTH : Z;
  MT_ROUTES : Z;
  message_write : Z -> Z -> Z -> Z -> M Z;
  message_ctor : mem -> Z -> Z -> outcome message
}.

Section Codec.

Context {E : Envelope}.

(** *** [size_t] arithmetic *)

Definition sz (x : Z) : Z := x mod 2 ^ w.
Definition sz_add (a b : Z) : Z := sz (a + b).
Definition sz_sub (a b : Z) : Z := sz (a - b).

(** *** 32-bit words in memory *)

Definition octet (x i : Z) : Z := Z.land (Z.shiftr x (8 * i)) 255.

Definition bswap32 (x : Z) : Z :=
  octet x 0 * 2 ^ 24 + octet x 1 * 2 ^ 16 + octet x 2 * 2 ^ 8 + octet x 3.

Definition htonl (x : Z) : Z := if little_endian then bswap32 x else x.
Definition ntohl (x : Z) : Z := htonl x.

(** [fscp::buffer_tools::set<uint8_t>(buf, offset, value)] *)
Definition set_u8 (buf offset value : Z) : M unit :=
  store (fun m => upd m (buf + offset) (value mod 256)).

(** The octets of a 32-bit word in the order the host keeps them. *)
Definition host_octets (x : Z) : list Z :=
  if little_endian
  then [octet x 0; octet x 1; octet x 2; octet x 3]
  else [octet x 3; octet x 2; octet x 1; octet x 0].

(** [fscp::buffer_tools::set<uint32_t>(buf, offset, value)] *)
Definition set_u32 (buf offset value : Z) : M unit :=
  store (store_bytes (host_octets value) (buf + offset)).

(** [fscp::buffer_tools::get<uint32_t>(buf, offset)] *)
Definition get_u32 (m : mem) (buf offset : Z) : Z :=
  let a := buf + offset in
  if little_endian
  then m a + m (a + 1) * 2 ^ 8 + m (a + 2) * 2 ^ 16 + m (a + 3) * 2 ^ 24
  else m a * 2 ^ 24 + m (a + 1) * 2 ^ 16 + m (a + 2) * 2 ^ 8 + m (a + 3).

(** *** The visitor, writing: [operator()] (lines 100-134) *)

Definition write_record (A : AddressType) (ir : base_ip_route)
    (m_buf m_buf_len : Z) : M Z :=
  let ina := network_address ir in
  let _gateway := gateway ir in
  let bytes := address ina in
  let result_size := 2 + bytes_size A in
  if m_buf_len <? result_size then throw err_buf_len
  else
    set_u8 m_buf 0
      (get_address_type A (match _gateway with Some _ => true | None => false end)) ;;;
    set_u8 m_buf 1 (prefix_length ina) ;;;
    store (store_bytes bytes (m_buf + 2)) ;;;
    match _gateway with
    | Some gateway_bytes =>
        let result_size := result_size + bytes_size A in
        if m_buf_len <? result_size then throw err_buf_len
        else
          store (store_bytes gateway_bytes (m_buf + 2 + bytes_size A)) ;;;
          ret result_size
    | None => ret result_size
    end.

(** [boost::apply_visitor(ip_network_address_representation(pbuf, pbuf_len), route)] *)
Definition apply_visitor (m_buf m_buf_len : Z) (route : ip_route) : M Z :=
  match route with
  | ipv4_route ir => write_record address_v4 ir m_buf m_buf_len
  | ipv6_route ir => write_record address_v6 ir m_buf m_buf_len
  end.

(** *** [routes_message::write] (lines 234-261) *)

(** The [for] loop over the routes; it yields the final [required_size]. *)
Fixpoint write_routes (routes : list ip_route)
    (pbuf pbuf_len required_size : Z) : M Z :=
  match routes with
  | [] => ret required_size
  | route :: rest =>
      count <- apply_visitor pbuf pbuf_len route ;;
      write_routes rest (pbuf + count) (sz_sub pbuf_len count)
        (sz_add required_size count)
  end.

(** Lines 236-258: everything before the call of [message::write]. *)
Definition write_payload (buf buf_len _version : Z)
    (routes : list ip_route) : M Z :=
  if buf_len <? HEADER_LENGTH then throw err_buf_len
  else
    let required_size := 0 in
    let pbuf := buf + HEADER_LENGTH in
    let pbuf_len := sz_sub buf_len HEADER_LENGTH in
    set_u32 pbuf 0 (htonl (_version mod 2 ^ 32)) ;;;
    let required_size := sz_add required_size 4 in
    let pbuf := pbuf + 4 in
    let pbuf_len := sz_sub pbuf_len 4 in
    write_routes routes pbuf pbuf_len required_size.

Definition write (buf buf_len _version : Z) (routes : list ip_route) : M Z :=
  required_size <- write_payload buf buf_len _version routes ;;
  message_write buf buf_len MT_ROUTES required_size.

(** *** The visitor, reading (lines 141-225) *)

Record reader : Type := mk_reader {
  m_buf : Z;
  m_buf_len : Z
}.

(** [read_next_ip_route<AddressType>(has_gateway)] *)
Definition read_next_base_ip_route (A : AddressType) (has_gateway : bool)
    (m : mem) (d : reader) : outcome (base_ip_route * reader) :=
  if m_buf_len d =? 0 then Throw err_prefix_length
  else
    let prefix_length := m (m_buf d) mod 256 in
    let d := mk_reader (m_buf d + 1) (sz_sub (m_buf_len d) 1) in
    if m_buf_len d <? bytes_size A then Throw err_ip_address
    else
      let bytes := load_bytes m (m_buf d) (Z.to_nat (bytes_size A)) in
      let d := mk_reader (m_buf d + bytes_size A)
                 (sz_sub (m_buf_len d) (bytes_size A)) in
      if has_gateway then
        if m_buf_len d <? bytes_size A then Throw err_ip_address
        else
          let gateway_bytes :=
            load_bytes m (m_buf d) (Z.to_nat (bytes_size A)) in
          let d := mk_reader (m_buf d + bytes_size A)
                     (sz_sub (m_buf_len d) (bytes_size A)) in
          Ok (mk_route (mk_network_address bytes prefix_length)
                (Some gateway_bytes), d)
      else
        Ok (mk_route (mk_network_address bytes prefix_length) None, d).

(** [read_next_ip_route(ir)]: [None] is the [false] it returns when the
    buffer is used up. *)
Definition read_next_ip_route (m : mem) (d : reader)
    : outcome (option ip_route * reader) :=
  if m_buf_len d =? 0 then Ok (None, d)
  else
    let _type := m (m_buf d) in
    let d := mk_reader (m_buf d + 1) (sz_sub (m_buf_len d) 1) in
    if (_type =? INAT_IPV4) || (_type =? INAT_IPV4_GATEWAY) then
      match read_next_base_ip_route address_v4
              (_type =? INAT_IPV4_GATEWAY) m d with
      | Ok (ir, d') => Ok (Some (ipv4_route ir), d')
      | Throw e => Throw e
      | Timeout => Timeout
      end
    else if (_type =? INAT_IPV6) || (_type =? INAT_IPV6_GATEWAY) then
      match read_next_base_ip_route address_v6
              (_type =? INAT_IPV4_GATEWAY) m d with
      | Ok (ir, d') => Ok (Some (ipv6_route ir), d')
      | Throw e => Throw e
      | Timeout => Timeout
      end
    else Throw err_unknown_type.

(** *** [routes_message::routes] and [version] (lines 263-290) *)

(** [while (deserializer.read_next_ip_route(ir)) result.insert(ir);] *)
Fixpoint routes_loop (fuel : nat) (m : mem) (deserializer : reader)
    (result : ip_route_set) : outcome ip_route_set :=
  match fuel with
  | O => Timeout
  | S fuel' =>
      match read_next_ip_route m deserializer with
      | Ok (Some ir, d') => routes_loop fuel' m d' (set_insert ir result)
      | Ok (None, _) => Ok result
      | Throw e => Throw e
      | Timeout => Timeout
      end
  end.

Record routes_message : Type := mk_routes_message {
  base : message;
  m_routes_cache : option ip_route_set
}.

Definition version (m : mem) (msg : routes_message) : Z :=
  ntohl (get_u32 m (payload (base msg)) 0).

Definition routes (fuel : nat) (m : mem) (msg : routes_message)
    : routes_message * outcome ip_route_set :=
  match m_routes_cache msg with
  | Some cached => (msg, Ok cached)
  | None =>
      let pbuf := payload (base msg) + 4 in
      let pbuf_len := sz_sub (length (base msg)) 4 in
      let deserializer := mk_reader pbuf pbuf_len in
      match routes_loop fuel m deserializer [] with
      | Ok result =>
          (mk_routes_message (base msg) (Some result), Ok result)
      | Throw e => (msg, Throw e)
      | Timeout => (msg, Timeout)
      end
  end.

(** *** The constructors (lines 292-302) *)

(** [routes_message(const message&)]: copy the base, then call [routes()]. *)
Definition routes_message_of_message (fuel : nat) (m : mem)
    (_message : message) : outcome routes_message :=
  match routes fuel m (mk_routes_message _message None) with
  | (msg, Ok _) => Ok msg
  | (_, Throw e) => Throw e
  | (_, Timeout) => Timeout
  end.

(** [routes_message(const void*, size_t)]: the base constructor, then
    [routes()]. *)
Definition routes_message_of_buffer (fuel : nat) (m : mem)
    (buf buf_len : Z) : outcome routes_message :=
  match message_ctor m buf buf_len with
  | Ok b => routes_message_of_message fuel m b
  | Throw e => Throw e
  | Timeout => Timeout
  end.

End Codec.

(** ** The wire format

    The record layout as the specification tables it: tag, prefix length,
    network address, then the gateway when there is one.  It is used below to
    say what [write] leaves in the buffer and what [routes] makes of it. *)

Definition gateway_octets (ir : base_ip_route) : list Z :=
  match gateway ir with Some g => g | None => [] end.

Definition record_octets_of (A : AddressType) (ir : base_ip_route) : list Z :=
  get_address_type A (match gateway ir with Some _ => true | None => false end)
  :: prefix_length (network_address ir) mod 256
  :: address (network_address ir) ++ gateway_octets ir.

Definition record_octets (r : ip_route) : list Z :=
  match r with
  | ipv4_route ir => record_octets_of address_v4 ir
  | ipv6_route ir => record_octets_of address_v6 ir
  end.

Definition records_octets (routes : list ip_route) : list Z :=
  flat_map record_octets routes.

(** The size of all the records of a route list. *)
Definition records_size (routes : list ip_route) : Z :=
  Z.of_nat (List.length (records_octets routes)).

Definition ipv6_with_gateway (r : ip_route) : Prop :=
  match r with
  | ipv4_route _ => False
  | ipv6_route ir => gateway ir <> None
  end.

(** Memory holds the octets [l] from address [p] on. *)
Definition holds (m : mem) (p : Z) (l : list Z) : Prop :=
  load_bytes m p (List.length l) = l.

(** The set [routes] builds from a stream of routes. *)
Definition insert_all (routes : list ip_route) (result : ip_route_set)
    : ip_route_set :=
  fold_left (fun s r => set_insert r s) routes result.



(** ** A stand-in for the base class, for running the model

    The base class is not part of the file under study.  To evaluate the
    model on concrete inputs an envelope is needed; this one is the plainest
    that fits the description "a fixed-size header, then the payload": a
    64-bit [size_t], a little-endian host, a header of four octets, and a
    buffer whose whole remainder after the header is the payload.  No general
    theorem depends on it. *)

Definition sample_message_write (buf buf_len _type _length : Z) : M Z :=
  if buf_len <? 4 then throw err_buf_len else ret (4 + _length).

Definition sample_message_ctor (m : mem) (buf buf_len : Z) : outcome message :=
  if buf_len <? 4 then Throw err_buf_len
  else Ok (mk_message (buf + 4) (buf_len - 4)).

Definition host64 : Envelope := {|
  w := 64;
  little_endian := true;
  HEADER_LENGTH := 4;
  MT_ROUTES := 2;
  message_write := sample_message_write;
  message_ctor := sample_message_ctor
|}.

Definition zero_mem : mem := fun _ => 0.

(** *** Sample routes *)

(** 10.0.0.0/24 *)
Definition r4 : ip_route :=
  ipv4_route (mk_route (mk_network_address [10; 0; 0; 0] 24) None).

(** 10.1.0.0/16 via 10.0.0.254 *)
Definition r4g : ip_route :=
  ipv4_route (mk_route (mk_network_address [10; 1; 0; 0] 16)
                (Some [10; 0; 0; 254])).

Definition a6_net : list Z :=
  [32; 1; 13; 184; 0; 0; 0; 0; 0; 0; 0; 0; 0; 0; 0; 0].
Definition a6_gw : list Z :=
  [254; 128; 0; 0; 0; 0; 0; 0; 0; 0; 0; 0; 0; 0; 0; 1].

(** 2001:db8::/32 *)
Definition r6 : ip_route :=
  ipv6_route (mk_route (mk_network_address a6_net 32) None).

(** 2001:db8::/32 via fe80::1 *)
Definition r6g : ip_route :=
  ipv6_route (mk_route (mk_network_address a6_net 32) (Some a6_gw)).

(** A gateway whose sixteen octets read as two IPv4 records:
    [01 18 0a 00 00 01] and [02 18 0a 00 00 02 0a 00 00 03]. *)
Definition a6_gw_records : list Z :=
  [1; 24; 10; 0; 0; 1; 2; 24; 10; 0; 0; 2; 10; 0; 0; 3].

Definition r6g_records : ip_route :=
  ipv6_route (mk_route (mk_network_address a6_net 32) (Some a6_gw_records)).

(** The three routes that the octets of [r6g_records] decode to. *)
Definition r6g_records_decoded : ip_route_set :=
  [r6;
   ipv4_route (mk_route (mk_network_address [10; 0; 0; 1] 24) None);
   ipv4_route (mk_route (mk_network_address [10; 0; 0; 2] 24)
                 (Some [10; 0; 0; 3]))].

(** A message that was not decoded yet. *)
Definition fresh (payload_at declared_length : Z) : routes_message :=
  mk_routes_message (mk_message payload_at declared_length) None.

(** *** Sample memories *)

(** One record tagged IPv6 with gateway, complete: 34 octets. *)
Definition v6_gateway_record : mem :=
  mem_of_list ([4; 32] ++ a6_net ++ a6_gw).

(** One record tagged IPv4 with gateway, complete: 10 octets. *)
Definition v4_gateway_record : mem :=
  mem_of_list [2; 16; 10; 1; 0; 0; 10; 0; 0; 254].

(** A payload of 22 octets: version 5, then a record tagged IPv6 with
    gateway that stops after its network address. *)
Definition torn_v6_payload : mem :=
  mem_of_list ([0; 0; 0; 5; 4; 32] ++ a6_net).

(** Memory around a payload declared two octets long at address 0; what
    follows the payload happens to read as an IPv4 record. *)
Definition short_payload : mem :=
  mem_of_list [0; 0; 0; 9; 1; 24; 10; 0; 0; 0].

(** A payload of 5 octets: version 1, then a tag that is no record kind. *)
Definition bad_tag_payload : mem :=
  mem_of_list [0; 0; 0; 1; 9].

(** A payload of 10 octets: version 1, then the record of [r4]. *)
Definition r4_payload : mem :=
  mem_of_list [0; 0; 0; 1; 1; 24; 10; 0; 0; 0].

(** A payload of 6 octets: version 1, then an IPv4 tag and a prefix length
    with no address after them. *)
Definition torn_v4_payload : mem :=
  mem_of_list [0; 0; 0; 1; 1; 24].

(** Every cell of the memory is an octet. *)
Definition octets (m : mem) : Prop := forall a, is_octet (m a).

(** The same route with another prefix length. *)
Definition with_prefix_length (ir : base_ip_route) (pl : Z) : base_ip_route :=
  mk_route (mk_network_address (address (network_address ir)) pl)
    (gateway ir).

(** Three routes that [routes] reads back as they were written. *)
Definition sample_routes : list ip_route := [r4; r4g; r6].

(** The 38 octets [write] makes of version 7 and [sample_routes]. *)
Definition sample_payload : mem :=
  mem_of_list ([0; 0; 0; 7] ++ records_octets sample_routes).

(** 10.0.0.0 with the prefix length 280, which no octet holds. *)
Definition r4_wide : base_ip_route :=
  mk_route (mk_network_address [10; 0; 0; 0] 280) None.

(** * Properties *)

Section Properties.

Context {E : Envelope}.

(** ** Memory *)

Lemma upd_same (m : mem) (a v : Z) : upd m a v a = v.
Proof. unfold upd. now rewrite Z.eqb_refl. Qed.

Lemma upd_other (m : mem) (a v x : Z) : x <> a -> upd m a v x = m x.
Proof. unfold upd. intros Hne. now apply Z.eqb_neq in Hne as ->. Qed.

Lemma store_bytes_outside (bs : list Z) :
  forall dest m a,
    a < dest \/ dest + Z.of_nat (List.length bs) <= a ->
    store_bytes bs dest m a = m a.
Proof.
  induction bs as [|b bs IH]; intros dest m a Ha; simpl in *; [reflexivity|].
  rewrite IH by lia. apply upd_other. lia.
Qed.

Lemma store_bytes_inside (bs : list Z) :
  forall dest m i,
    0 <= i < Z.of_nat (List.length bs) ->
    store_bytes bs dest m (dest + i) = nth (Z.to_nat i) bs 0.
Proof.
  induction bs as [|b bs IH]; intros dest m i Hi; simpl in *; [lia|].
  destruct (Z.eq_dec i 0) as [->|Hnz].
  - rewrite Z.add_0_r, store_bytes_outside by lia. apply upd_same.
  - replace (dest + i) with (dest + 1 + (i - 1)) by lia.
    rewrite IH by lia.
    replace (Z.to_nat i) with (S (Z.to_nat (i - 1))) by lia. reflexivity.
Qed.

Lemma load_bytes_length (m : mem) (n : nat) :
  forall src, List.length (load_bytes m src n) = n.
Proof. induction n as [|n IH]; intros src; simpl; [|rewrite IH]; reflexivity. Qed.

Lemma load_bytes_nth (m : mem) (n : nat) :
  forall src i, (i < n)%nat ->
    nth i (load_bytes m src n) 0 = m (src + Z.of_nat i).
Proof.
  induction n as [|n IH]; intros src i Hi; [lia|].
  destruct i as [|i]; simpl.
  - now rewrite Z.add_0_r.
  - rewrite IH by lia. f_equal. lia.
Qed.

(** Loading what was just stored gives the stored octets back. *)
Lemma load_store_bytes (bs : list Z) :
  forall dest m,
    load_bytes (store_bytes bs dest m) dest (List.length bs) = bs.
Proof.
  induction bs as [|b bs IH]; intros dest m; simpl; [reflexivity|].
  rewrite store_bytes_outside by lia. rewrite upd_same. f_equal. apply IH.
Qed.

Lemma load_bytes_ext (m m' : mem) (n : nat) :
  forall src,
    (forall a, src <= a < src + Z.of_nat n -> m a = m' a) ->
    load_bytes m src n = load_bytes m' src n.
Proof.
  induction n as [|n IH]; intros src H; simpl; [reflexivity|].
  rewrite H by lia. f_equal. apply IH. intros a Ha. apply H. lia.
Qed.

(** ** [size_t] arithmetic *)

Lemma pow2_w_pos : 0 <= w -> 0 < 2 ^ w.
Proof. intros. apply Z.pow_pos_nonneg; lia. Qed.

Lemma sz_small (x : Z) : 0 <= x < 2 ^ w -> sz x = x.
Proof. intros H. unfold sz. now apply Z.mod_small. Qed.

Lemma sz_sub_small (a b : Z) :
  0 <= b <= a -> a < 2 ^ w -> sz_sub a b = a - b.
Proof. intros H1 H2. unfold sz_sub. apply sz_small. lia. Qed.

(** A [size_t] subtraction below zero wraps around. *)
Lemma sz_sub_wrap (a b : Z) :
  0 <= a < b -> b <= 2 ^ w -> sz_sub a b = 2 ^ w + a - b.
Proof.
  intros H1 H2. unfold sz_sub, sz.
  replace (a - b) with (2 ^ w + a - b + (-1) * 2 ^ w) by lia.
  rewrite Z.mod_add by lia. apply Z.mod_small. lia.
Qed.

Lemma pow2_w_ge (k : Z) : 0 <= k <= w -> 2 ^ k <= 2 ^ w.
Proof. intros H. apply Z.pow_le_mono_r; lia. Qed.

(** ** The version field is big-endian on either host *)

Lemma octet_div (x i : Z) : 0 <= i -> octet x i = (x / 2 ^ (8 * i)) mod 256.
Proof.
  intros Hi. unfold octet.
  rewrite Z.shiftr_div_pow2 by lia.
  change 255 with (Z.ones 8). rewrite Z.land_ones by lia. reflexivity.
Qed.

Lemma octet_range (x i : Z) : 0 <= i -> 0 <= octet x i < 256.
Proof. intros Hi. rewrite octet_div by assumption. apply Z.mod_pos_bound. lia. Qed.

Lemma octet_bswap32 (x : Z) :
  octet (bswap32 x) 0 = octet x 3 /\ octet (bswap32 x) 1 = octet x 2 /\
  octet (bswap32 x) 2 = octet x 1 /\ octet (bswap32 x) 3 = octet x 0.
Proof.
  unfold bswap32.
  pose proof (octet_range x 0 ltac:(lia)) as H0.
  pose proof (octet_range x 1 ltac:(lia)) as H1.
  pose proof (octet_range x 2 ltac:(lia)) as H2.
  pose proof (octet_range x 3 ltac:(lia)) as H3.
  generalize dependent (octet x 0). generalize dependent (octet x 1).
  generalize dependent (octet x 2). generalize dependent (octet x 3).
  intros b3 H3 b2 H2 b1 H1 b0 H0.
  rewrite !octet_div by lia.
  change (2 ^ (8 * 0)) with 1. change (2 ^ (8 * 1)) with 256.
  change (2 ^ (8 * 2)) with 65536. change (2 ^ (8 * 3)) with 16777216.
  change (2 ^ 24) with 16777216. change (2 ^ 16) with 65536.
  change (2 ^ 8) with 256.
  repeat split; Z.div_mod_to_equations; lia.
Qed.

(** What [set<uint32_t>(pbuf, 0, htonl(v))] leaves in memory. *)
Lemma host_octets_htonl (x : Z) :
  host_octets (htonl x) = [octet x 3; octet x 2; octet x 1; octet x 0].
Proof.
  unfold host_octets, htonl. destruct little_endian; [|reflexivity].
  destruct (octet_bswap32 x) as (-> & -> & -> & ->). reflexivity.
Qed.

(** ** The record writer *)

Lemma apply_visitor_make (A : AddressType) (ir : base_ip_route) (p n : Z) :
  apply_visitor p n (make_ip_route A ir) = write_record A ir p n.
Proof. destruct A; reflexivity. Qed.

Lemma bytes_size_pos (A : AddressType) : 4 <= bytes_size A <= 16.
Proof. destruct A; simpl; lia. Qed.

Lemma get_address_type_octet (A : AddressType) (b : bool) :
  get_address_type A b mod 256 = get_address_type A b.
Proof. destruct A, b; reflexivity. Qed.

(** A record without a gateway, written into enough room. *)
Lemma write_record_plain (A : AddressType) (ir : base_ip_route)
    (p n : Z) (m : mem) :
  gateway ir = None ->
  2 + bytes_size A <= n ->
  write_record A ir p n m =
    (store_bytes (address (network_address ir)) (p + 2)
       (upd (upd m (p + 0) (get_address_type A false))
          (p + 1) (prefix_length (network_address ir) mod 256)),
     Ok (2 + bytes_size A)).
Proof.
  intros Hg Hn. unfold write_record. rewrite Hg.
  destruct (Z.ltb_spec n (2 + bytes_size A)) as [Hlt|_]; [lia|].
  unfold bind, set_u8, store, ret. rewrite get_address_type_octet. reflexivity.
Qed.

(** A record with a gateway, written into enough room. *)
Lemma write_record_gateway (A : AddressType) (ir : base_ip_route)
    (g : list Z) (p n : Z) (m : mem) :
  gateway ir = Some g ->
  2 + bytes_size A + bytes_size A <= n ->
  write_record A ir p n m =
    (store_bytes g (p + 2 + bytes_size A)
       (store_bytes (address (network_address ir)) (p + 2)
          (upd (upd m (p + 0) (get_address_type A true))
             (p + 1) (prefix_length (network_address ir) mod 256))),
     Ok (2 + bytes_size A + bytes_size A)).
Proof.
  intros Hg Hn. unfold write_record. rewrite Hg.
  pose proof (bytes_size_pos A).
  destruct (Z.ltb_spec n (2 + bytes_size A)) as [Hlt|_]; [lia|].
  unfold bind, set_u8, store, ret. rewrite get_address_type_octet.
  destruct (Z.ltb_spec n (2 + bytes_size A + bytes_size A)) as [Hlt|_]; [lia|].
  reflexivity.
Qed.

(** C10. A route with a gateway, written where the tag, the prefix length
    and the network address fit but the gateway does not: the writer throws,
    and by then it has stored exactly the first [2 + bytes_size] octets of the
    record; every other octet of memory is as it was. *)
Theorem write_record_gateway_partial
    (A : AddressType) (ir : base_ip_route) (g : list Z)
    (p n : Z) (m : mem) :
  gateway ir = Some g ->
  Z.of_nat (List.length (address (network_address ir))) = bytes_size A ->
  2 + bytes_size A <= n < 2 + 2 * bytes_size A ->
  exists m',
    apply_visitor p n (make_ip_route A ir) m = (m', Throw err_buf_len) /\
    m' p = get_address_type A true /\
    m' (p + 1) = prefix_length (network_address ir) mod 256 /\
    (forall i, 0 <= i < bytes_size A ->
       m' (p + 2 + i) = nth (Z.to_nat i) (address (network_address ir)) 0) /\
    (forall a, a < p \/ p + 2 + bytes_size A <= a -> m' a = m a).
Proof.
  intros Hg Hlen Hn. rewrite apply_visitor_make.
  unfold write_record. rewrite Hg.
  destruct (Z.ltb_spec n (2 + bytes_size A)) as [Hlt|_]; [lia|].
  unfold bind, set_u8, store, throw. rewrite get_address_type_octet.
  destruct (Z.ltb_spec n (2 + bytes_size A + bytes_size A)) as [_|Hge]; [|lia].
  eexists. split; [reflexivity|].
  pose proof (bytes_size_pos A) as HA.
  repeat split.
  - rewrite store_bytes_outside by lia.
    rewrite upd_other by lia. rewrite Z.add_0_r. apply upd_same.
  - rewrite store_bytes_outside by lia. apply upd_same.
  - intros i Hi. apply store_bytes_inside. lia.
  - intros a Ha. rewrite store_bytes_outside by lia.
    rewrite !upd_other by lia. reflexivity.
Qed.

(** ** [routes_message::write] *)

(** Past the first check, [write_payload] stores the version, most
    significant octet first, and enters the loop. *)
Lemma write_payload_enter (buf buf_len v : Z) (routes : list ip_route)
    (m : mem) :
  HEADER_LENGTH <= buf_len ->
  write_payload buf buf_len v routes m =
    write_routes routes (buf + HEADER_LENGTH + 4)
      (sz_sub (sz_sub buf_len HEADER_LENGTH) 4) (sz_add 0 4)
      (store_bytes
         [octet (v mod 2 ^ 32) 3; octet (v mod 2 ^ 32) 2;
          octet (v mod 2 ^ 32) 1; octet (v mod 2 ^ 32) 0]
         (buf + HEADER_LENGTH) m).
Proof.
  intros Hle. unfold write_payload.
  destruct (Z.ltb_spec buf_len HEADER_LENGTH) as [Hlt|_]; [lia|].
  unfold bind, set_u32, store. rewrite host_octets_htonl, Z.add_0_r.
  reflexivity.
Qed.

Lemma write_payload_too_small (buf buf_len v : Z) (routes : list ip_route)
    (m : mem) :
  buf_len < HEADER_LENGTH ->
  write_payload buf buf_len v routes m = (m, Throw err_buf_len).
Proof.
  intros Hlt. unfold write_payload.
  destruct (Z.ltb_spec buf_len HEADER_LENGTH) as [_|Hge]; [reflexivity|lia].
Qed.

Lemma sz_add_0_4 : 3 <= w -> sz_add 0 4 = 4.
Proof.
  intros Hw. unfold sz_add. apply sz_small.
  pose proof (pow2_w_ge 3 ltac:(lia)) as H. change (2 ^ 3) with 8 in H. lia.
Qed.

(** With a wrapped remaining length no record is ever refused. *)
Lemma apply_visitor_huge (p n : Z) (route : ip_route) (m : mem) :
  34 <= n ->
  exists m' count, apply_visitor p n route m = (m', Ok count).
Proof.
  intros Hn.
  assert (Hrec : forall A ir,
             exists m' count, write_record A ir p n m = (m', Ok count)).
  { intros A ir. pose proof (bytes_size_pos A) as HA.
    destruct (gateway ir) as [g|] eqn:Hg.
    - rewrite (write_record_gateway A ir g) by (assumption || lia). eauto.
    - rewrite write_record_plain by (assumption || lia). eauto. }
  destruct route as [ir|ir]; apply Hrec.
Qed.

(** ** The record reader *)

(** The reader on a length in range, with the [size_t] subtractions
    resolved: none of them wraps, each follows its own check. *)
Lemma read_next_base_ip_route_eq (A : AddressType) (has_gateway : bool)
    (m : mem) (d : reader) :
  0 <= m_buf_len d < 2 ^ w ->
  read_next_base_ip_route A has_gateway m d =
    let n := Z.to_nat (bytes_size A) in
    let na := mk_network_address (load_bytes m (m_buf d + 1) n)
                (m (m_buf d) mod 256) in
    if m_buf_len d =? 0 then Throw err_prefix_length
    else if m_buf_len d - 1 <? bytes_size A then Throw err_ip_address
    else if has_gateway then
      if m_buf_len d - 1 - bytes_size A <? bytes_size A
      then Throw err_ip_address
      else Ok (mk_route na
                 (Some (load_bytes m (m_buf d + 1 + bytes_size A) n)),
               mk_reader (m_buf d + 1 + bytes_size A + bytes_size A)
                 (m_buf_len d - 1 - bytes_size A - bytes_size A))
    else Ok (mk_route na None,
             mk_reader (m_buf d + 1 + bytes_size A)
               (m_buf_len d - 1 - bytes_size A)).
Proof.
  intros Hr. unfold read_next_base_ip_route. cbv zeta.
  pose proof (bytes_size_pos A) as HA.
  destruct (Z.eqb_spec (m_buf_len d) 0) as [|Hnz]; [reflexivity|].
  cbn [m_buf m_buf_len].
  rewrite (sz_sub_small (m_buf_len d) 1) by lia.
  destruct (Z.ltb_spec (m_buf_len d - 1) (bytes_size A)) as [|Hfit];
    [reflexivity|].
  rewrite (sz_sub_small (m_buf_len d - 1) (bytes_size A)) by lia.
  destruct has_gateway; [|reflexivity].
  destruct (Z.ltb_spec (m_buf_len d - 1 - bytes_size A) (bytes_size A))
    as [|Hfit']; [reflexivity|].
  rewrite (sz_sub_small (m_buf_len d - 1 - bytes_size A) (bytes_size A))
    by lia.
  reflexivity.
Qed.

(** A record that was read took octets from the buffer and left a length in
    range. *)
Lemma read_next_base_ip_route_progress (A : AddressType) (hg : bool)
    (m : mem) (d d' : reader) (ir : base_ip_route) :
  0 <= m_buf_len d < 2 ^ w ->
  read_next_base_ip_route A hg m d = Ok (ir, d') ->
  0 <= m_buf_len d' < m_buf_len d.
Proof.
  intros Hr. rewrite read_next_base_ip_route_eq by assumption. cbv zeta.
  pose proof (bytes_size_pos A) as HA.
  destruct (Z.eqb_spec (m_buf_len d) 0); [discriminate|].
  destruct (Z.ltb_spec (m_buf_len d - 1) (bytes_size A)); [discriminate|].
  destruct hg.
  - destruct (Z.ltb_spec (m_buf_len d - 1 - bytes_size A) (bytes_size A));
      [discriminate|].
    intros [= _ <-]. cbn. lia.
  - intros [= _ <-]. cbn. lia.
Qed.

Lemma read_next_ip_route_end (m : mem) (d : reader) :
  m_buf_len d = 0 -> read_next_ip_route m d = Ok (None, d).
Proof. intros H. unfold read_next_ip_route. now rewrite H. Qed.

(** [read_next_ip_route] returns [false] only on an empty buffer. *)
Lemma read_next_ip_route_false (m : mem) (d d' : reader) :
  read_next_ip_route m d = Ok (None, d') -> m_buf_len d = 0 /\ d' = d.
Proof.
  unfold read_next_ip_route.
  destruct (Z.eqb_spec (m_buf_len d) 0) as [Hz|Hnz].
  - intros [= <-]. auto.
  - destruct (_ || _).
    + destruct (read_next_base_ip_route _ _ _ _) as [[ir d1]| |]; discriminate.
    + destruct (_ || _); [|discriminate].
      destruct (read_next_base_ip_route _ _ _ _) as [[ir d1]| |]; discriminate.
Qed.

Lemma read_next_ip_route_progress (m : mem) (d d' : reader) (r : ip_route) :
  0 <= m_buf_len d < 2 ^ w ->
  read_next_ip_route m d = Ok (Some r, d') ->
  0 <= m_buf_len d' < m_buf_len d.
Proof.
  intros Hr. unfold read_next_ip_route.
  destruct (Z.eqb_spec (m_buf_len d) 0) as [Hz|Hnz]; [discriminate|].
  set (d1 := mk_reader (m_buf d + 1) (sz_sub (m_buf_len d) 1)).
  assert (Hd1 : 0 <= m_buf_len d1 < m_buf_len d).
  { unfold d1. cbn. rewrite sz_sub_small by lia. lia. }
  destruct (_ || _).
  - destruct (read_next_base_ip_route _ _ _ _) as [[ir d2]| |] eqn:Hb;
      try discriminate.
    intros [= _ <-].
    apply read_next_base_ip_route_progress in Hb; lia.
  - destruct (_ || _); [|discriminate].
    destruct (read_next_base_ip_route _ _ _ _) as [[ir d2]| |] eqn:Hb;
      try discriminate.
    intros [= _ <-].
    apply read_next_base_ip_route_progress in Hb; lia.
Qed.

Lemma read_next_base_ip_route_no_timeout (A : AddressType) (hg : bool)
    (m : mem) (d : reader) :
  read_next_base_ip_route A hg m d <> Timeout.
Proof.
  unfold read_next_base_ip_route. cbv zeta.
  repeat match goal with
         | |- context [if ?c then _ else _] => destruct c
         end; discriminate.
Qed.

Lemma read_next_ip_route_no_timeout (m : mem) (d : reader) :
  read_next_ip_route m d <> Timeout.
Proof.
  unfold read_next_ip_route.
  destruct (_ =? _); [discriminate|].
  destruct (_ || _).
  - pose proof (read_next_base_ip_route_no_timeout address_v4
                  (m (m_buf d) =? INAT_IPV4_GATEWAY) m
                  (mk_reader (m_buf d + 1) (sz_sub (m_buf_len d) 1))) as H.
    destruct (read_next_base_ip_route _ _ _ _) as [[ir d1]| |];
      [discriminate|discriminate|contradiction].
  - destruct (_ || _); [|discriminate].
    pose proof (read_next_base_ip_route_no_timeout address_v6
                  (m (m_buf d) =? INAT_IPV4_GATEWAY) m
                  (mk_reader (m_buf d + 1) (sz_sub (m_buf_len d) 1))) as H.
    destruct (read_next_base_ip_route _ _ _ _) as [[ir d1]| |];
      [discriminate|discriminate|contradiction].
Qed.

(** ** The loop of [routes] ends *)

(** More fuel than octets to read is always enough: the loop returns a set
    or throws. *)
Lemma routes_loop_total (fuel : nat) :
  forall (m : mem) (d : reader) (result : ip_route_set),
    0 <= m_buf_len d < 2 ^ w ->
    (Z.to_nat (m_buf_len d) < fuel)%nat ->
    routes_loop fuel m d result <> Timeout.
Proof.
  induction fuel as [|fuel IH]; intros m d result Hr Hfuel; [lia|].
  cbn [routes_loop].
  pose proof (read_next_ip_route_no_timeout m d) as Hnt.
  destruct (read_next_ip_route m d) as [[[r|] d']| |] eqn:Hread;
    try discriminate; try contradiction.
  apply read_next_ip_route_progress in Hread; [|assumption].
  apply IH; lia.
Qed.

(** Fuel beyond what a run needed does not change its outcome. *)
Lemma routes_loop_more_fuel (fuel : nat) :
  forall (m : mem) (d : reader) (result : ip_route_set) (extra : nat),
    routes_loop fuel m d result <> Timeout ->
    routes_loop (fuel + extra) m d result = routes_loop fuel m d result.
Proof.
  induction fuel as [|fuel IH]; intros m d result extra Hnt.
  - contradiction Hnt. reflexivity.
  - cbn [routes_loop Nat.add] in *.
    destruct (read_next_ip_route m d) as [[[r|] d']| |]; try reflexivity.
    apply IH. assumption.
Qed.

(** ** Unknown tags *)

(** C5. Whenever the reader stands at a tag octet that is none of the four
    record kinds, the read throws "Unknown route type in message"; so does
    the loop of [routes] from that point, whatever it has collected, and so
    does [routes] itself when that point is the start of the records. *)
Theorem unknown_tag_throws (fuel : nat) (m : mem) (d : reader)
    (result : ip_route_set) (msg : routes_message) :
  m_buf_len d <> 0 ->
  ~ In (m (m_buf d))
      [INAT_IPV4; INAT_IPV4_GATEWAY; INAT_IPV6; INAT_IPV6_GATEWAY] ->
  read_next_ip_route m d = Throw err_unknown_type /\
  routes_loop (S fuel) m d result = Throw err_unknown_type /\
  (m_routes_cache msg = None ->
   d = mk_reader (payload (base msg) + 4) (sz_sub (length (base msg)) 4) ->
   routes (S fuel) m msg = (msg, Throw err_unknown_type)) /\
  UnknownRecordType err_unknown_type.
Proof.
  intros Hlen Htag.
  assert (Hread : read_next_ip_route m d = Throw err_unknown_type).
  { unfold read_next_ip_route.
    destruct (Z.eqb_spec (m_buf_len d) 0) as [|_]; [contradiction|].
    cbn in Htag.
    destruct (Z.eqb_spec (m (m_buf d)) INAT_IPV4) as [Heq|_];
      [exfalso; apply Htag; auto|].
    destruct (Z.eqb_spec (m (m_buf d)) INAT_IPV4_GATEWAY) as [Heq|_];
      [exfalso; apply Htag; auto|].
    destruct (Z.eqb_spec (m (m_buf d)) INAT_IPV6) as [Heq|_];
      [exfalso; apply Htag; auto|].
    destruct (Z.eqb_spec (m (m_buf d)) INAT_IPV6_GATEWAY) as [Heq|_];
      [exfalso; apply Htag; auto 6|].
    reflexivity. }
  assert (Hloop : forall acc, routes_loop (S fuel) m d acc = Throw err_unknown_type).
  { intros acc. cbn [routes_loop]. now rewrite Hread. }
  repeat split; auto.
  intros Hcache Hd. unfold routes. rewrite Hcache, <- Hd, Hloop. reflexivity.
Qed.

(** ** The cache *)

(** An access that finds the cache filled returns it and touches nothing. *)
Lemma routes_cached (fuel : nat) (m : mem) (msg : routes_message)
    (cached : ip_route_set) :
  m_routes_cache msg = Some cached -> routes fuel m msg = (msg, Ok cached).
Proof. intros H. unfold routes. now rewrite H. Qed.

(** What an access that returned a set did to the message. *)
Lemma routes_ok_inv (fuel : nat) (m : mem) (msg msg' : routes_message)
    (rs : ip_route_set) :
  routes fuel m msg = (msg', Ok rs) ->
  msg' = mk_routes_message (base msg) (Some rs) /\
  match m_routes_cache msg with
  | Some cached => rs = cached /\ msg' = msg
  | None =>
      routes_loop fuel m
        (mk_reader (payload (base msg) + 4) (sz_sub (length (base msg)) 4)) []
        = Ok rs
  end.
Proof.
  unfold routes.
  destruct msg as [b [cached|]]; cbn [m_routes_cache base].
  - intros [= <- <-]. auto.
  - destruct (routes_loop fuel m _ []) as [result| |] eqn:Hloop;
      intros [= <- <-]. auto.
Qed.

(** C7. An access that returns a set leaves the message with that set in
    its cache.  If the cache was empty, the set is what one run of the loop
    over the buffer gave; if it was filled, the set is the cached one and the
    message is unchanged.  Every later access returns the same set and the
    same message whatever the memory holds by then, even with no fuel at
    all: it does not run the loop. *)
Theorem routes_memoized (fuel : nat) (m : mem) (msg msg' : routes_message)
    (rs : ip_route_set) :
  routes fuel m msg = (msg', Ok rs) ->
  (m_routes_cache msg = None ->
   routes_loop fuel m
     (mk_reader (payload (base msg) + 4) (sz_sub (length (base msg)) 4)) []
     = Ok rs) /\
  (forall cached, m_routes_cache msg = Some cached ->
     rs = cached /\ msg' = msg) /\
  msg' = mk_routes_message (base msg) (Some rs) /\
  (forall fuel' m', routes fuel' m' msg' = (msg', Ok rs)).
Proof.
  intros Hr. apply routes_ok_inv in Hr as [Hmsg Hcase].
  split; [|split; [|split]].
  - intros Hnone. now rewrite Hnone in Hcase.
  - intros cached Hsome. now rewrite Hsome in Hcase.
  - exact Hmsg.
  - intros fuel' m'. apply routes_cached. now rewrite Hmsg.
Qed.

(** A message that was constructed has its cache filled by the run of the
    loop made in the constructor, and [routes] never throws on it. *)
Lemma constructed_is_cached (fuel : nat) (m : mem) (b : message)
    (msg : routes_message) :
  routes_message_of_message fuel m b = Ok msg ->
  exists rs,
    routes_loop fuel m (mk_reader (payload b + 4) (sz_sub (length b) 4)) []
      = Ok rs /\
    msg = mk_routes_message b (Some rs) /\
    forall fuel' m', routes fuel' m' msg = (msg, Ok rs).
Proof.
  unfold routes_message_of_message.
  destruct (routes fuel m (mk_routes_message b None)) as [msg1 [rs| |]] eqn:Hr;
    try discriminate.
  intros [= <-]. exists rs.
  apply routes_ok_inv in Hr as [Hmsg Hrun].
  cbn [m_routes_cache base payload length] in Hmsg, Hrun.
  split; [exact Hrun|]. split; [exact Hmsg|].
  intros fuel' m'. apply routes_cached. now rewrite Hmsg.
Qed.

Lemma constructed_from_buffer_is_cached (fuel : nat) (m : mem)
    (buf buf_len : Z) (msg : routes_message) :
  routes_message_of_buffer fuel m buf buf_len = Ok msg ->
  exists rs, m_routes_cache msg = Some rs /\
    forall fuel' m', routes fuel' m' msg = (msg, Ok rs).
Proof.
  unfold routes_message_of_buffer.
  destruct (message_ctor m buf buf_len) as [b| |]; try discriminate.
  intros H. apply constructed_is_cached in H as (rs & _ & -> & Hlater).
  exists rs. auto.
Qed.

(** ** Failures *)

(** C8. A decode that throws gives no set and leaves the cache empty, and
    the constructors throw the same exception instead of giving a message.
    An encode that throws while writing the payload makes [write] throw: no
    size is returned. *)
Theorem failure_aborts (fuel : nat) (m : mem) (msg : routes_message)
    (e_dec e_enc : exn) (buf buf_len v : Z) (routes_in : list ip_route)
    (m0 : mem) :
  m_routes_cache msg = None ->
  routes_loop fuel m
    (mk_reader (payload (base msg) + 4) (sz_sub (length (base msg)) 4)) []
    = Throw e_dec ->
  snd (write_payload buf buf_len v routes_in m0) = Throw e_enc ->
  (routes fuel m msg = (msg, Throw e_dec) /\
   m_routes_cache (fst (routes fuel m msg)) = None /\
   routes_message_of_message fuel m (base msg) = Throw e_dec /\
   (forall b l, message_ctor m b l = Ok (base msg) ->
      routes_message_of_buffer fuel m b l = Throw e_dec)) /\
  (snd (write buf buf_len v routes_in m0) = Throw e_enc /\
   forall n, snd (write buf buf_len v routes_in m0) <> Ok n).
Proof.
  intros Hcache Hdec Henc.
  assert (Hr : routes fuel m msg = (msg, Throw e_dec)).
  { unfold routes. now rewrite Hcache, Hdec. }
  assert (Hm : routes_message_of_message fuel m (base msg) = Throw e_dec).
  { unfold routes_message_of_message.
    destruct msg as [b c]; cbn [base m_routes_cache] in *. subst c.
    now rewrite Hr. }
  assert (Hw : snd (write buf buf_len v routes_in m0) = Throw e_enc).
  { unfold write, bind.
    destruct (write_payload buf buf_len v routes_in m0) as [m1 [n| |]];
      cbn [snd] in *; try discriminate; assumption. }
  split; [repeat split|split].
  - assumption.
  - now rewrite Hr.
  - assumption.
  - intros b l Hb. unfold routes_message_of_buffer. now rewrite Hb.
  - assumption.
  - intros n. rewrite Hw. discriminate.
Qed.

(** [routes], like its loop, is not changed by fuel it did not need. *)
Lemma routes_more_fuel (fuel extra : nat) (m : mem) (msg : routes_message) :
  snd (routes fuel m msg) <> Timeout ->
  routes (fuel + extra) m msg = routes fuel m msg.
Proof.
  unfold routes. destruct (m_routes_cache msg); [reflexivity|].
  intros Hnt. rewrite routes_loop_more_fuel; [reflexivity|].
  intros Hloop. apply Hnt. now rewrite Hloop.
Qed.

(** The reader never yields an IPv6 route that has a gateway: for the IPv6
    tags, line 216 asks for a gateway when the tag is [INAT_IPV4_GATEWAY],
    which it is not. *)
Lemma ipv6_route_read_has_no_gateway (m : mem) (d d' : reader)
    (ir : base_ip_route) :
  read_next_ip_route m d = Ok (Some (ipv6_route ir), d') ->
  gateway ir = None.
Proof.
  unfold read_next_ip_route.
  destruct (_ =? 0); [discriminate|].
  destruct (Z.eqb_spec (m (m_buf d)) INAT_IPV4) as [H1|H1]; cbn [orb].
  - destruct (read_next_base_ip_route _ _ _ _) as [[ir1 d1]| |]; discriminate.
  - destruct (Z.eqb_spec (m (m_buf d)) INAT_IPV4_GATEWAY) as [H2|H2].
    + destruct (read_next_base_ip_route _ _ _ _) as [[ir1 d1]| |]; discriminate.
    + destruct (_ || _); [|discriminate].
      unfold read_next_base_ip_route. cbv zeta.
      repeat match goal with
             | |- context [if ?c then _ else _] => destruct c
             end; try discriminate.
      intros [= <- _]. reflexivity.
Qed.

(** ** What the writer leaves in the buffer *)

Lemma store_bytes_app (a b : list Z) :
  forall dest m,
    store_bytes (a ++ b) dest m
      = store_bytes b (dest + Z.of_nat (List.length a)) (store_bytes a dest m).
Proof.
  induction a as [|x a IH]; intros dest m.
  - cbn. now rewrite Z.add_0_r.
  - cbn [app store_bytes List.length]. rewrite IH. f_equal. lia.
Qed.

Lemma holds_app (m : mem) (a b : list Z) :
  forall p,
    holds m p (a ++ b) <->
    holds m p a /\ holds m (p + Z.of_nat (List.length a)) b.
Proof.
  unfold holds. induction a as [|x a IH]; intros p.
  - cbn. rewrite Z.add_0_r. tauto.
  - cbn [app List.length load_bytes]. split.
    + intros [= Hx Hrest]. apply IH in Hrest as [Ha Hb].
      split; [now rewrite Hx, Ha|].
      replace (p + Z.of_nat (S (List.length a)))
        with (p + 1 + Z.of_nat (List.length a)) by lia.
      assumption.
    + intros [[= Hx Ha] Hb]. rewrite Hx. f_equal. apply IH. split; [assumption|].
      replace (p + 1 + Z.of_nat (List.length a))
        with (p + Z.of_nat (S (List.length a))) by lia.
      assumption.
Qed.

Lemma holds_store_bytes (l : list Z) (p : Z) (m : mem) :
  holds (store_bytes l p m) p l.
Proof. apply load_store_bytes. Qed.

Lemma record_octets_of_length (A : AddressType) (ir : base_ip_route) :
  wf_base_ip_route A ir ->
  Z.of_nat (List.length (record_octets_of A ir))
    = 2 + bytes_size A
      + match gateway ir with Some _ => bytes_size A | None => 0 end.
Proof.
  intros (Ha & _ & Hg). unfold record_octets_of, gateway_octets.
  cbn [List.length]. rewrite length_app.
  destruct (gateway ir) as [g|]; [destruct Hg as [Hg _]|];
    destruct Ha as [Ha _]; cbn [List.length]; lia.
Qed.

Lemma record_octets_length (r : ip_route) :
  wf_ip_route r -> 6 <= Z.of_nat (List.length (record_octets r)) <= 34.
Proof.
  destruct r as [ir|ir]; cbn [wf_ip_route record_octets]; intros Hwf;
    rewrite record_octets_of_length by assumption;
    destruct (gateway ir); cbn; lia.
Qed.

(** In enough room, the visitor stores the octets of the record and returns
    their number. *)
Lemma write_record_octets (A : AddressType) (ir : base_ip_route)
    (p n : Z) (m : mem) :
  wf_base_ip_route A ir ->
  Z.of_nat (List.length (record_octets_of A ir)) <= n ->
  write_record A ir p n m =
    (store_bytes (record_octets_of A ir) p m,
     Ok (Z.of_nat (List.length (record_octets_of A ir)))).
Proof.
  intros Hwf Hn. pose proof (record_octets_of_length A ir Hwf) as Hlen.
  rewrite Hlen in *. destruct Hwf as ([Ha _] & _ & Hg).
  unfold record_octets_of, gateway_octets.
  destruct (gateway ir) as [g|] eqn:Hgw.
  - rewrite (write_record_gateway A ir g) by (assumption || lia).
    cbn [store_bytes]. rewrite store_bytes_app, Ha.
    rewrite Z.add_0_r. replace (p + 1 + 1) with (p + 2) by lia.
    reflexivity.
  - rewrite write_record_plain by (assumption || lia).
    cbn [store_bytes]. rewrite app_nil_r, !Z.add_0_r.
    replace (p + 1 + 1) with (p + 2) by lia. reflexivity.
Qed.

Lemma apply_visitor_octets (p n : Z) (r : ip_route) (m : mem) :
  wf_ip_route r ->
  Z.of_nat (List.length (record_octets r)) <= n ->
  apply_visitor p n r m =
    (store_bytes (record_octets r) p m,
     Ok (Z.of_nat (List.length (record_octets r)))).
Proof. destruct r as [ir|ir]; apply write_record_octets. Qed.

Lemma records_size_cons (r : ip_route) (routes : list ip_route) :
  records_size (r :: routes)
    = Z.of_nat (List.length (record_octets r)) + records_size routes.
Proof.
  unfold records_size, records_octets. cbn [flat_map].
  rewrite length_app. lia.
Qed.

Lemma records_size_nonneg (routes : list ip_route) : 0 <= records_size routes.
Proof. unfold records_size. lia. Qed.

(** In enough room, the loop of [write] stores the records one after the
    other and adds their sizes to [required_size]. *)
Lemma write_routes_octets (routes : list ip_route) :
  forall (p n required_size : Z) (m : mem),
    Forall wf_ip_route routes ->
    records_size routes <= n < 2 ^ w ->
    0 <= required_size ->
    required_size + records_size routes < 2 ^ w ->
    write_routes routes p n required_size m =
      (store_bytes (records_octets routes) p m,
       Ok (required_size + records_size routes)).
Proof.
  induction routes as [|r routes IH]; intros p n rq m Hwf Hn Hrq Hsum.
  - cbn. unfold ret. now rewrite Z.add_0_r.
  - inversion Hwf as [|? ? Hr Hrest]; subst.
    rewrite records_size_cons in *.
    pose proof (record_octets_length r Hr) as Hlen.
    pose proof (records_size_nonneg routes) as Hpos.
    cbn [write_routes]. unfold bind.
    rewrite apply_visitor_octets by (assumption || lia).
    unfold sz_sub, sz_add. rewrite !sz_small by lia.
    rewrite IH by (assumption || lia).
    unfold records_octets. cbn [flat_map]. rewrite store_bytes_app.
    rewrite Z.add_assoc. reflexivity.
Qed.

(** ** What the reader makes of a written record *)

Lemma holds_cons (m : mem) (p x : Z) (l : list Z) :
  holds m p (x :: l) <-> m p = x /\ holds m (p + 1) l.
Proof.
  unfold holds. cbn [List.length load_bytes]. split.
  - intros [= Hx Hl]. auto.
  - intros [Hx Hl]. now rewrite Hx, Hl.
Qed.

Lemma holds_exact (m : mem) (p : Z) (l : list Z) (n : Z) :
  holds m p l -> Z.of_nat (List.length l) = n ->
  load_bytes m p (Z.to_nat n) = l.
Proof.
  intros H <-. now rewrite Nat2Z.id.
Qed.

(** Two outcomes of a read that differ in how the position and the length
    left are written. *)
Ltac same_reader :=
  match goal with
  | |- Ok (?x, mk_reader ?a ?b) = Ok (?x, mk_reader ?c ?d) =>
      replace c with a by lia; replace d with b by lia; reflexivity
  end.

(** The templated reader gives back the route whose octets are in the
    buffer, when it is asked for a gateway exactly if there is one. *)
Lemma read_next_base_ip_route_octets (A : AddressType) (ir : base_ip_route)
    (rest : list Z) (m : mem) (p n : Z) :
  wf_base_ip_route A ir ->
  holds m p
    (prefix_length (network_address ir) mod 256
     :: (address (network_address ir) ++ gateway_octets ir) ++ rest) ->
  1 + bytes_size A + Z.of_nat (List.length (gateway_octets ir)) <= n < 2 ^ w ->
  read_next_base_ip_route A
    (match gateway ir with Some _ => true | None => false end) m
    (mk_reader p n)
  = Ok (ir,
        mk_reader
          (p + (1 + bytes_size A + Z.of_nat (List.length (gateway_octets ir))))
          (n - (1 + bytes_size A + Z.of_nat (List.length (gateway_octets ir))))).
Proof.
  intros ([Ha _] & Hpl & Hg) Hm Hn.
  pose proof (bytes_size_pos A) as HA.
  apply holds_cons in Hm as [Hp Hm].
  rewrite <- app_assoc in Hm.
  apply holds_app in Hm as [Haddr Hm]. rewrite Ha in Hm.
  apply holds_app in Hm as [Hgw _].
  rewrite read_next_base_ip_route_eq by (cbn; lia).
  cbn [m_buf m_buf_len]. cbv zeta.
  destruct (Z.eqb_spec n 0) as [|_]; [lia|].
  destruct (Z.ltb_spec (n - 1) (bytes_size A)) as [|_]; [lia|].
  rewrite Hp, Z.mod_mod by lia.
  rewrite (Z.mod_small (prefix_length (network_address ir))) by exact Hpl.
  rewrite (holds_exact _ _ _ _ Haddr Ha).
  destruct ir as [[addr pl] [g|]]; unfold gateway_octets in *;
    cbn [gateway network_address address prefix_length List.length] in *.
  - destruct Hg as [Hg _]. rewrite Hg in Hn.
    destruct (Z.ltb_spec (n - 1 - bytes_size A) (bytes_size A)) as [|_]; [lia|].
    rewrite (holds_exact _ _ _ _ Hgw Hg). rewrite Hg.
    same_reader.
  - same_reader.
Qed.

(** A well-formed record in the buffer is read back as the route it was
    written from, unless it is an IPv6 route with a gateway. *)
Lemma read_next_ip_route_octets (r : ip_route) (rest : list Z)
    (m : mem) (p n : Z) :
  wf_ip_route r ->
  ~ ipv6_with_gateway r ->
  holds m p (record_octets r ++ rest) ->
  Z.of_nat (List.length (record_octets r)) <= n < 2 ^ w ->
  read_next_ip_route m (mk_reader p n)
  = Ok (Some r,
        mk_reader (p + Z.of_nat (List.length (record_octets r)))
          (n - Z.of_nat (List.length (record_octets r)))).
Proof.
  intros Hwf Hno Hm Hn.
  pose proof (record_octets_length r Hwf) as Hlen.
  unfold read_next_ip_route. cbn [m_buf m_buf_len].
  destruct (Z.eqb_spec n 0) as [|_]; [lia|].
  rewrite sz_sub_small by lia.
  destruct r as [ir|ir]; cbn [record_octets wf_ip_route ipv6_with_gateway] in *;
    unfold record_octets_of in Hm, Hn, Hlen |- *;
    cbn [app List.length] in Hm, Hn, Hlen |- *;
    apply holds_cons in Hm as [Htag Hm]; rewrite Htag.
  - assert (Hflag : (get_address_type address_v4
                       (match gateway ir with
                        | Some _ => true | None => false end)
                     =? INAT_IPV4_GATEWAY)
                    = match gateway ir with
                      | Some _ => true | None => false end)
      by (destruct (gateway ir); reflexivity).
    replace ((get_address_type address_v4 _ =? INAT_IPV4) || _) with true
      by (destruct (gateway ir); reflexivity).
    rewrite Hflag.
    pose proof Hwf as ([Ha _] & _).
    rewrite length_app in Hn, Hlen |- *.
    rewrite (read_next_base_ip_route_octets address_v4 ir rest)
      by (assumption || lia).
    same_reader.
  - destruct (gateway ir) as [g|] eqn:Hgw; [exfalso; apply Hno; discriminate|].
    cbn [get_address_type]. cbn [Z.eqb INAT_IPV6 INAT_IPV4 INAT_IPV4_GATEWAY
                                  INAT_IPV6_GATEWAY Pos.eqb orb].
    pose proof (read_next_base_ip_route_octets address_v6 ir rest m (p + 1)
                  (n - 1) Hwf) as Hread.
    pose proof Hwf as ([Ha _] & _).
    rewrite length_app in Hn, Hlen |- *.
    rewrite Hgw in Hread. rewrite Hread.
    + same_reader.
    + exact Hm.
    + lia.
Qed.

Lemma records_octets_cons (r : ip_route) (routes : list ip_route) :
  records_octets (r :: routes) = record_octets r ++ records_octets routes.
Proof. reflexivity. Qed.

(** Over a buffer that holds the records of [routes_in], none of them an
    IPv6 route with a gateway, the loop of [routes] inserts them one by
    one and stops at the end of the buffer. *)
Lemma routes_loop_octets (routes_in : list ip_route) :
  forall (m : mem) (p n : Z) (result : ip_route_set),
    Forall wf_ip_route routes_in ->
    Forall (fun r => ~ ipv6_with_gateway r) routes_in ->
    holds m p (records_octets routes_in) ->
    n = records_size routes_in ->
    n < 2 ^ w ->
    routes_loop (S (List.length routes_in)) m (mk_reader p n) result
      = Ok (insert_all routes_in result).
Proof.
  induction routes_in as [|r routes_in IH];
    intros m p n result Hwf Hno Hm Hn Hmax.
  - cbn [routes_loop]. rewrite read_next_ip_route_end by (subst n; reflexivity).
    reflexivity.
  - inversion Hwf as [|? ? Hr Hrest]; subst.
    inversion Hno as [|? ? Hnr Hnrest]; subst.
    rewrite records_size_cons in *. rewrite records_octets_cons in Hm.
    pose proof (records_size_nonneg routes_in) as Hpos.
    change (routes_loop (S (List.length (r :: routes_in))))
      with (routes_loop (S (S (List.length routes_in)))).
    remember (S (List.length routes_in)) as fuel eqn:Hfuel.
    cbn [routes_loop].
    rewrite (read_next_ip_route_octets r (records_octets routes_in))
      by (assumption || lia).
    subst fuel. rewrite IH; try assumption.
    + reflexivity.
    + apply holds_app in Hm. tauto.
    + lia.
    + lia.
Qed.

Lemma insert_all_In (routes_in : list ip_route) :
  forall (result : ip_route_set) (r : ip_route),
    In r (insert_all routes_in result) <-> In r routes_in \/ In r result.
Proof.
  unfold insert_all.
  induction routes_in as [|x routes_in IH]; intros result r; cbn [fold_left].
  - cbn. tauto.
  - rewrite IH. unfold set_insert. rewrite set_add_iff. cbn [In].
    split; intros H; repeat destruct H as [H|H]; auto.
Qed.

(** ** The version field read back *)

Lemma octets_sum (x : Z) :
  0 <= x < 2 ^ 32 ->
  octet x 3 * 2 ^ 24 + octet x 2 * 2 ^ 16 + octet x 1 * 2 ^ 8 + octet x 0 = x.
Proof.
  intros Hx. rewrite !octet_div by lia.
  change (2 ^ 32) with 4294967296 in Hx.
  change (2 ^ (8 * 0)) with 1. change (2 ^ (8 * 1)) with 256.
  change (2 ^ (8 * 2)) with 65536. change (2 ^ (8 * 3)) with 16777216.
  change (2 ^ 24) with 16777216. change (2 ^ 16) with 65536.
  change (2 ^ 8) with 256.
  Z.div_mod_to_equations. lia.
Qed.

Lemma bswap32_involutive_on_octets (b0 b1 b2 b3 : Z) :
  0 <= b0 < 256 -> 0 <= b1 < 256 -> 0 <= b2 < 256 -> 0 <= b3 < 256 ->
  bswap32 (b3 + b2 * 2 ^ 8 + b1 * 2 ^ 16 + b0 * 2 ^ 24)
    = b3 * 2 ^ 24 + b2 * 2 ^ 16 + b1 * 2 ^ 8 + b0.
Proof.
  intros H0 H1 H2 H3. unfold bswap32. rewrite !octet_div by lia.
  change (2 ^ (8 * 0)) with 1. change (2 ^ (8 * 1)) with 256.
  change (2 ^ (8 * 2)) with 65536. change (2 ^ (8 * 3)) with 16777216.
  change (2 ^ 24) with 16777216. change (2 ^ 16) with 65536.
  change (2 ^ 8) with 256.
  Z.div_mod_to_equations. lia.
Qed.

(** [version] reads back what [write] stored, on either host. *)
Lemma version_of_stored (m : mem) (msg : routes_message) (x : Z) :
  0 <= x < 2 ^ 32 ->
  holds m (payload (base msg))
    [octet x 3; octet x 2; octet x 1; octet x 0] ->
  version m msg = x.
Proof.
  intros Hx Hm.
  apply holds_cons in Hm as [H3 Hm]. apply holds_cons in Hm as [H2 Hm].
  apply holds_cons in Hm as [H1 Hm]. apply holds_cons in Hm as [H0 _].
  unfold version, ntohl, htonl, get_u32. rewrite Z.add_0_r.
  replace (payload (base msg) + 1 + 1) with (payload (base msg) + 2) in * by lia.
  replace (payload (base msg) + 2 + 1) with (payload (base msg) + 3) in * by lia.
  rewrite H3, H2, H1, H0.
  destruct little_endian.
  - rewrite bswap32_involutive_on_octets by (apply octet_range; lia).
    pose proof (octets_sum x Hx). lia.
  - apply octets_sum. assumption.
Qed.

(** ** Encoding then decoding, away from the IPv6 gateway *)

(** X1. For well-formed routes none of which is an IPv6 route with a gateway,
    and a buffer with room for the header, the version and the records:
    [write] stores exactly the version and the records after the header and
    counts them; [version] and [routes] on a message over those octets give
    the version and the routes back, as a set. *)
Lemma roundtrip_without_ipv6_gateway
    (buf buf_len v : Z) (routes_in : list ip_route) (m : mem) :
  3 <= w ->
  0 <= HEADER_LENGTH ->
  Forall wf_ip_route routes_in ->
  Forall (fun r => ~ ipv6_with_gateway r) routes_in ->
  HEADER_LENGTH + 4 + records_size routes_in <= buf_len < 2 ^ w ->
  let size := 4 + records_size routes_in in
  let msg := fresh (buf + HEADER_LENGTH) size in
  exists m' rs,
    write_payload buf buf_len v routes_in m = (m', Ok size) /\
    (forall a, a < buf + HEADER_LENGTH \/ buf + HEADER_LENGTH + size <= a ->
       m' a = m a) /\
    version m' msg = v mod 2 ^ 32 /\
    (forall extra,
       snd (routes (S (List.length routes_in) + extra) m' msg) = Ok rs) /\
    same_set rs routes_in.
Proof.
  intros Hw HH Hwf Hno Hlen size msg.
  pose proof (records_size_nonneg routes_in) as Hpos.
  pose proof (pow2_w_ge 3 ltac:(lia)) as H8. change (2 ^ 3) with 8 in H8.
  set (vo := [octet (v mod 2 ^ 32) 3; octet (v mod 2 ^ 32) 2;
              octet (v mod 2 ^ 32) 1; octet (v mod 2 ^ 32) 0]).
  set (m1 := store_bytes vo (buf + HEADER_LENGTH) m).
  set (m' := store_bytes (records_octets routes_in)
               (buf + HEADER_LENGTH + 4) m1).
  assert (Hwrite : write_payload buf buf_len v routes_in m = (m', Ok size)).
  { rewrite write_payload_enter by lia. fold vo m1.
    rewrite sz_add_0_4 by assumption.
    rewrite (sz_sub_small buf_len HEADER_LENGTH) by lia.
    rewrite sz_sub_small by lia.
    rewrite write_routes_octets by (assumption || lia). reflexivity. }
  assert (Hrecords : holds m' (buf + HEADER_LENGTH + 4)
                       (records_octets routes_in))
    by apply holds_store_bytes.
  assert (Hversion : holds m' (buf + HEADER_LENGTH) vo).
  { unfold holds, m'. erewrite load_bytes_ext; [apply holds_store_bytes|].
    intros a Ha. cbn [List.length vo] in Ha.
    apply store_bytes_outside. lia. }
  assert (Hloop : routes_loop (S (List.length routes_in)) m'
                    (mk_reader (buf + HEADER_LENGTH + 4)
                       (records_size routes_in)) []
                  = Ok (insert_all routes_in [])).
  { apply routes_loop_octets; try assumption; [reflexivity|lia]. }
  exists m', (insert_all routes_in []).
  split; [exact Hwrite|]. split; [|split; [|split]].
  - intros a Ha. unfold m', m1.
    rewrite store_bytes_outside by (fold (records_size routes_in); lia).
    apply store_bytes_outside. cbn [List.length vo]. lia.
  - apply version_of_stored; [apply Z.mod_pos_bound; lia|exact Hversion].
  - intros extra.
    assert (Hr : snd (routes (S (List.length routes_in)) m' msg)
                 = Ok (insert_all routes_in [])).
    { unfold routes, msg, fresh, size.
      cbn [m_routes_cache base payload length].
      rewrite sz_sub_small by lia.
      replace (4 + records_size routes_in - 4)
        with (records_size routes_in) by lia.
      rewrite Hloop. reflexivity. }
    rewrite routes_more_fuel; [exact Hr|]. rewrite Hr. discriminate.
  - intros r. rewrite insert_all_In. cbn [In]. tauto.
Qed.

(** ** Where the encoder keeps within the buffer *)

Lemma write_record_refused (A : AddressType) (ir : base_ip_route)
    (p n : Z) (m : mem) :
  n < 2 + bytes_size A ->
  write_record A ir p n m = (m, Throw err_buf_len).
Proof.
  intros Hn. unfold write_record.
  destruct (Z.ltb_spec n (2 + bytes_size A)) as [_|Hge]; [reflexivity|lia].
Qed.

Lemma write_record_gateway_refused (A : AddressType) (ir : base_ip_route)
    (g : list Z) (p n : Z) (m : mem) :
  gateway ir = Some g ->
  2 + bytes_size A <= n < 2 + bytes_size A + bytes_size A ->
  write_record A ir p n m =
    (store_bytes (address (network_address ir)) (p + 2)
       (upd (upd m (p + 0) (get_address_type A true))
          (p + 1) (prefix_length (network_address ir) mod 256)),
     Throw err_buf_len).
Proof.
  intros Hg Hn. unfold write_record. rewrite Hg.
  destruct (Z.ltb_spec n (2 + bytes_size A)) as [Hlt|_]; [lia|].
  unfold bind, set_u8, store, throw. rewrite get_address_type_octet.
  destruct (Z.ltb_spec n (2 + bytes_size A + bytes_size A)) as [_|Hge];
    [reflexivity|lia].
Qed.

(** A record that does not fit is refused with "buf_len", and what was
    stored of it lies within the room that was announced. *)
Lemma apply_visitor_too_small (p n : Z) (r : ip_route) (m : mem) :
  wf_ip_route r ->
  n < Z.of_nat (List.length (record_octets r)) ->
  snd (apply_visitor p n r m) = Throw err_buf_len /\
  forall a, a < p \/ p + n <= a -> fst (apply_visitor p n r m) a = m a.
Proof.
  assert (Hrec : forall A ir,
             wf_base_ip_route A ir ->
             n < Z.of_nat (List.length (record_octets_of A ir)) ->
             snd (write_record A ir p n m) = Throw err_buf_len /\
             forall a, a < p \/ p + n <= a ->
                       fst (write_record A ir p n m) a = m a).
  { intros A ir Hwf Hn. rewrite record_octets_of_length in Hn by assumption.
    pose proof (bytes_size_pos A) as HA.
    destruct Hwf as ([Ha _] & _ & Hg).
    destruct (Z.lt_ge_cases n (2 + bytes_size A)) as [Hsmall|Hbig].
    - rewrite write_record_refused by assumption. auto.
    - destruct (gateway ir) as [g|] eqn:Hgw; [|lia].
      rewrite (write_record_gateway_refused A ir g) by (assumption || lia).
      split; [reflexivity|]. intros a Hout. cbn [fst].
      rewrite store_bytes_outside by lia. rewrite !upd_other by lia.
      reflexivity. }
  destruct r as [ir|ir]; apply Hrec.
Qed.

(** The loop of [write] never stores outside the room it was given. *)
Lemma write_routes_frame (routes_in : list ip_route) :
  forall (p n required_size : Z) (m : mem),
    Forall wf_ip_route routes_in ->
    0 <= n < 2 ^ w ->
    forall a, a < p \/ p + n <= a ->
      fst (write_routes routes_in p n required_size m) a = m a.
Proof.
  induction routes_in as [|r routes_in IH];
    intros p n rq m Hwf Hn a Hout; [reflexivity|].
  inversion Hwf as [|? ? Hr Hrest]; subst.
  pose proof (record_octets_length r Hr) as Hlen.
  cbn [write_routes]. unfold bind.
  destruct (Z.lt_ge_cases n (Z.of_nat (List.length (record_octets r))))
    as [Hsmall|Hbig].
  - destruct (apply_visitor_too_small p n r m Hr Hsmall) as [Hthrow Hframe].
    specialize (Hframe a Hout).
    destruct (apply_visitor p n r m) as [m1 o]; cbn [fst snd] in *.
    subst o. exact Hframe.
  - rewrite apply_visitor_octets by (assumption || lia).
    rewrite IH; [|assumption|rewrite sz_sub_small by lia; lia
                 |rewrite sz_sub_small by lia; lia].
    apply store_bytes_outside. lia.
Qed.

(** With less room than the records need, the loop of [write] throws
    "buf_len". *)
Lemma write_routes_too_small (routes_in : list ip_route) :
  forall (p n required_size : Z) (m : mem),
    Forall wf_ip_route routes_in ->
    0 <= n < records_size routes_in ->
    n < 2 ^ w ->
    snd (write_routes routes_in p n required_size m) = Throw err_buf_len.
Proof.
  induction routes_in as [|r routes_in IH]; intros p n rq m Hwf Hn Hmax.
  - cbn in Hn. lia.
  - inversion Hwf as [|? ? Hr Hrest]; subst.
    rewrite records_size_cons in Hn.
    pose proof (record_octets_length r Hr) as Hlen.
    cbn [write_routes]. unfold bind.
    destruct (Z.lt_ge_cases n (Z.of_nat (List.length (record_octets r))))
      as [Hsmall|Hbig].
    + destruct (apply_visitor_too_small p n r m Hr Hsmall) as [Hthrow _].
      destruct (apply_visitor p n r m) as [m1 o]; cbn [snd] in *.
      subst o. reflexivity.
    + rewrite apply_visitor_octets by (assumption || lia).
      apply IH; [assumption|rewrite sz_sub_small by lia; lia
                |rewrite sz_sub_small by lia; lia].
Qed.

(** From capacity for the header and the version on, [write] stores only
    between the header and the end of the buffer, whether it throws or not. *)
Lemma write_payload_in_bounds (buf buf_len v : Z)
    (routes_in : list ip_route) (m : mem) :
  0 <= HEADER_LENGTH ->
  Forall wf_ip_route routes_in ->
  HEADER_LENGTH + 4 <= buf_len < 2 ^ w ->
  forall a, a < buf + HEADER_LENGTH \/ buf + buf_len <= a ->
    fst (write_payload buf buf_len v routes_in m) a = m a.
Proof.
  intros HH Hwf Hlen a Hout. rewrite write_payload_enter by lia.
  rewrite (sz_sub_small buf_len HEADER_LENGTH) by lia.
  rewrite sz_sub_small by lia.
  rewrite write_routes_frame by (assumption || lia).
  apply store_bytes_outside. cbn [List.length]. lia.
Qed.

(** From capacity for the header and the version on, a buffer that is too
    small for the records makes [write] throw "buf_len": in particular a
    buffer one octet short of a payload that has a record. *)
Lemma write_payload_records_too_small (buf buf_len v : Z)
    (routes_in : list ip_route) (m : mem) :
  0 <= HEADER_LENGTH ->
  Forall wf_ip_route routes_in ->
  HEADER_LENGTH + 4 <= buf_len < HEADER_LENGTH + 4 + records_size routes_in ->
  buf_len < 2 ^ w ->
  snd (write_payload buf buf_len v routes_in m) = Throw err_buf_len /\
  BufferTooSmall err_buf_len.
Proof.
  intros HH Hwf Hlen Hmax. split; [|reflexivity].
  rewrite write_payload_enter by lia.
  rewrite (sz_sub_small buf_len HEADER_LENGTH) by lia.
  rewrite sz_sub_small by lia.
  apply write_routes_too_small; [assumption|lia|lia].
Qed.

(** ** Torn records that are refused *)

(** After a known tag, a buffer that ends before the prefix length or
    inside the network address makes the read throw one of the two "Not
    enough bytes" errors; after the tag IPv4 with gateway, so does a buffer
    that ends inside the gateway. *)
Lemma read_next_ip_route_torn (m : mem) (p n : Z) :
  0 < n < 2 ^ w ->
  (m p = INAT_IPV4 /\ n < 1 + 1 + 4) \/
  (m p = INAT_IPV4_GATEWAY /\ n < 1 + 1 + 4 + 4) \/
  ((m p = INAT_IPV6 \/ m p = INAT_IPV6_GATEWAY) /\ n < 1 + 1 + 16) ->
  exists e, read_next_ip_route m (mk_reader p n) = Throw e /\
            TruncatedRecord e.
Proof.
  intros Hn Hcase. unfold read_next_ip_route. cbn [m_buf m_buf_len].
  destruct (Z.eqb_spec n 0) as [|_]; [lia|].
  rewrite sz_sub_small by lia.
  assert (Hbase : forall A (hg : bool),
             n - 1 < 1 + bytes_size A + (if hg then bytes_size A else 0) ->
             exists e,
               read_next_base_ip_route A hg m (mk_reader (p + 1) (n - 1))
                 = Throw e /\ TruncatedRecord e).
  { intros A hg Hshort. pose proof (bytes_size_pos A) as HA.
    rewrite read_next_base_ip_route_eq by (cbn; lia).
    cbn [m_buf m_buf_len]. cbv zeta. unfold TruncatedRecord.
    destruct (Z.eqb_spec (n - 1) 0); [eauto|].
    destruct (Z.ltb_spec (n - 1 - 1) (bytes_size A)); [eauto|].
    destruct hg; [|lia].
    destruct (Z.ltb_spec (n - 1 - 1 - bytes_size A) (bytes_size A));
      [eauto|lia]. }
  destruct Hcase as [[Ht Hs]|[[Ht Hs]|[Ht Hs]]].
  - rewrite Ht. cbn [Z.eqb INAT_IPV4 INAT_IPV4_GATEWAY Pos.eqb orb].
    destruct (Hbase address_v4 false) as (e & He1 & He2); [cbn; lia|].
    rewrite He1. eauto.
  - rewrite Ht. cbn [Z.eqb INAT_IPV4 INAT_IPV4_GATEWAY Pos.eqb orb].
    destruct (Hbase address_v4 true) as (e & He1 & He2); [cbn; lia|].
    rewrite He1. eauto.
  - destruct (Hbase address_v6 false) as (e & He1 & He2); [cbn; lia|].
    destruct Ht as [Ht|Ht]; rewrite Ht;
      cbn [Z.eqb INAT_IPV4 INAT_IPV4_GATEWAY INAT_IPV6 INAT_IPV6_GATEWAY
             Pos.eqb orb]; rewrite He1; eauto.
Qed.

(** ** Where the encoder leaves the buffer *)

(** C3, what the code does.  With room for the header but for fewer than
    four octets after it, [write] does not throw "buf_len": the version is
    stored unchecked, the remaining length wraps, every record passes its
    check, and the whole payload, version and records, is stored from the end
    of the header on, to beyond the end of the buffer. *)
Theorem write_payload_version_overrun (buf buf_len v : Z)
    (routes_in : list ip_route) (m : mem) :
  3 <= w ->
  0 <= HEADER_LENGTH ->
  HEADER_LENGTH <= buf_len < HEADER_LENGTH + 4 ->
  buf_len < 2 ^ w ->
  Forall wf_ip_route routes_in ->
  4 + records_size routes_in < 2 ^ w ->
  exists m',
    write_payload buf buf_len v routes_in m
      = (m', Ok (4 + records_size routes_in)) /\
    holds m' (buf + HEADER_LENGTH)
      ([octet (v mod 2 ^ 32) 3; octet (v mod 2 ^ 32) 2;
        octet (v mod 2 ^ 32) 1; octet (v mod 2 ^ 32) 0]
       ++ records_octets routes_in) /\
    buf + buf_len < buf + HEADER_LENGTH + 4 + records_size routes_in.
Proof.
  intros Hw HH Hlen Hmax Hwf Hsize.
  pose proof (records_size_nonneg routes_in) as Hpos.
  rewrite write_payload_enter by lia.
  rewrite sz_add_0_4 by assumption.
  rewrite (sz_sub_small buf_len HEADER_LENGTH) by lia.
  rewrite sz_sub_wrap by lia.
  rewrite write_routes_octets by (assumption || lia).
  eexists. split; [reflexivity|]. split; [|lia].
  apply holds_app. split.
  - unfold holds. erewrite load_bytes_ext; [apply holds_store_bytes|].
    intros a Ha. cbn [List.length] in Ha.
    apply store_bytes_outside. lia.
  - apply holds_store_bytes.
Qed.

(** ** [routes] returns *)

Lemma sz_range (x : Z) : 0 <= w -> 0 <= sz x < 2 ^ w.
Proof. intros Hw. unfold sz. apply Z.mod_pos_bound. now apply pow2_w_pos. Qed.

(** Whatever the message and the memory, [routes] with more fuel than the
    remaining length it starts from returns a set or throws. *)
Lemma routes_total (fuel : nat) (m : mem) (msg : routes_message) :
  0 <= w ->
  (Z.to_nat (sz_sub (length (base msg)) 4) < fuel)%nat ->
  snd (routes fuel m msg) <> Timeout.
Proof.
  intros Hw Hfuel. unfold routes.
  destruct (m_routes_cache msg); [discriminate|].
  pose proof (routes_loop_total fuel m
                (mk_reader (payload (base msg) + 4)
                   (sz_sub (length (base msg)) 4)) []) as Hloop.
  cbn [m_buf_len] in Hloop.
  specialize (Hloop (sz_range _ Hw) Hfuel).
  destruct (routes_loop fuel m _ []); cbn [snd]; congruence.
Qed.

(** The constructors, too, return a message or throw. *)
Lemma routes_message_of_message_total (fuel : nat) (m : mem) (b : message) :
  0 <= w ->
  (Z.to_nat (sz_sub (length b) 4) < fuel)%nat ->
  routes_message_of_message fuel m b <> Timeout.
Proof.
  intros Hw Hfuel. unfold routes_message_of_message.
  pose proof (routes_total fuel m (mk_routes_message b None) Hw Hfuel) as H.
  destruct (routes fuel m (mk_routes_message b None)) as [msg [rs|e|]];
    cbn [snd] in H; congruence.
Qed.

(** * More of the encoder *)

(** ** The loop of [write] over two lists *)

(** Once the records of [done] are stored, the loop goes on from behind
    them with what is left of the room. *)
Lemma write_routes_app (done rest : list ip_route) :
  forall (p n required_size : Z) (m : mem),
    Forall wf_ip_route done ->
    records_size done <= n < 2 ^ w ->
    0 <= required_size ->
    required_size + records_size done < 2 ^ w ->
    write_routes (done ++ rest) p n required_size m =
      write_routes rest (p + records_size done) (n - records_size done)
        (required_size + records_size done)
        (store_bytes (records_octets done) p m).
Proof.
  induction done as [|r done IH]; intros p n rq m Hwf Hn Hrq Hsum.
  - cbn [app records_octets flat_map store_bytes].
    change (records_size []) with 0. now rewrite !Z.add_0_r, Z.sub_0_r.
  - inversion Hwf as [|? ? Hr Hrest]; subst.
    rewrite records_size_cons in *.
    pose proof (record_octets_length r Hr) as Hlen.
    pose proof (records_size_nonneg done) as Hpos.
    cbn [app write_routes]. unfold bind.
    rewrite apply_visitor_octets by (assumption || lia).
    unfold sz_sub, sz_add. rewrite !sz_small by lia.
    rewrite IH by (assumption || lia).
    rewrite records_octets_cons, store_bytes_app.
    f_equal; lia.
Qed.

(** ** What the encoder throws *)

Lemma write_record_throws (A : AddressType) (ir : base_ip_route)
    (p n : Z) (m m' : mem) (e : exn) :
  write_record A ir p n m = (m', Throw e) -> e = err_buf_len.
Proof.
  unfold write_record, bind, set_u8, store, throw, ret.
  destruct (n <? 2 + bytes_size A); [now intros [= _ <-]|].
  destruct (gateway ir) as [g|]; [|discriminate].
  destruct (n <? 2 + bytes_size A + bytes_size A);
    [now intros [= _ <-]|discriminate].
Qed.

Lemma write_routes_throws (routes_in : list ip_route) :
  forall (p n required_size : Z) (m m' : mem) (e : exn),
    write_routes routes_in p n required_size m = (m', Throw e) ->
    e = err_buf_len.
Proof.
  induction routes_in as [|r routes_in IH]; intros p n rq m m' e.
  - discriminate.
  - cbn [write_routes]. unfold bind.
    destruct (apply_visitor p n r m) as [m1 [count|e1|]] eqn:Hvisit.
    + apply IH.
    + intros [= _ <-]. destruct r as [ir|ir]; cbn [apply_visitor] in Hvisit;
        eapply write_record_throws; eassumption.
    + discriminate.
Qed.

Lemma holds_ext (m m' : mem) (p : Z) (l : list Z) :
  (forall a, p <= a < p + Z.of_nat (List.length l) -> m a = m' a) ->
  holds m' p l -> holds m p l.
Proof.
  unfold holds. intros Hagree Hm'. rewrite <- Hm' at 2.
  apply load_bytes_ext. assumption.
Qed.

(** The version and, behind it, the records, as two stores leave them. *)
Lemma holds_version_and_records (vo recs : list Z) (p : Z) (m : mem) :
  List.length vo = 4%nat ->
  holds (store_bytes recs (p + 4) (store_bytes vo p m)) p (vo ++ recs).
Proof.
  intros Hvo. apply holds_app. rewrite Hvo. split.
  - apply (holds_ext _ (store_bytes vo p m)); [|apply holds_store_bytes].
    intros a Ha. rewrite Hvo in Ha. apply store_bytes_outside. lia.
  - apply holds_store_bytes.
Qed.

(** X2. [write] stores nothing outside the buffer it was given, and nothing
    in the header, when the buffer is refused at once or has room for the
    header and the version: whether the records then fit or [write] throws
    part-way, every octet before [buf + HEADER_LENGTH] and from
    [buf + buf_len] on is as it was. *)
Theorem write_stays_in_buffer (buf buf_len v : Z)
    (routes_in : list ip_route) (m : mem) (a : Z) :
  0 <= HEADER_LENGTH ->
  Forall wf_ip_route routes_in ->
  buf_len < HEADER_LENGTH \/ HEADER_LENGTH + 4 <= buf_len ->
  buf_len < 2 ^ w ->
  a < buf + HEADER_LENGTH \/ buf + buf_len <= a ->
  fst (write_payload buf buf_len v routes_in m) a = m a.
Proof.
  intros HH Hwf [Hsmall|Hbig] Hmax Hout.
  - now rewrite write_payload_too_small.
  - apply write_payload_in_bounds; (assumption || lia).
Qed.

(** X3. The capacity at which [write] starts to succeed is exact.  For a
    buffer that is refused at once or has room for the header and the
    version, [write] gets through its loop with
    [4 + (the sizes of the records)] as the payload size exactly when the
    buffer has [HEADER_LENGTH] plus that many octets; with one octet less,
    or any fewer, it throws "buf_len". *)
Theorem write_payload_capacity_boundary (buf buf_len v : Z)
    (routes_in : list ip_route) (m : mem) :
  3 <= w ->
  0 <= HEADER_LENGTH ->
  Forall wf_ip_route routes_in ->
  buf_len < HEADER_LENGTH \/ HEADER_LENGTH + 4 <= buf_len ->
  buf_len < 2 ^ w ->
  4 + records_size routes_in < 2 ^ w ->
  snd (write_payload buf buf_len v routes_in m) =
    if buf_len <? HEADER_LENGTH + 4 + records_size routes_in
    then Throw err_buf_len
    else Ok (4 + records_size routes_in).
Proof.
  intros Hw HH Hwf Hcase Hmax Hsize.
  pose proof (records_size_nonneg routes_in) as Hpos.
  destruct (Z.ltb_spec buf_len (HEADER_LENGTH + 4 + records_size routes_in))
    as [Hshort|Hfits].
  - destruct Hcase as [Hsmall|Hbig].
    + now rewrite write_payload_too_small.
    + apply write_payload_records_too_small; (assumption || lia).
  - rewrite write_payload_enter by lia.
    rewrite sz_add_0_4 by assumption.
    rewrite (sz_sub_small buf_len HEADER_LENGTH) by lia.
    rewrite sz_sub_small by lia.
    rewrite write_routes_octets by (assumption || lia). reflexivity.
Qed.

(** X4. [write] does not roll back.  When the buffer has room for the
    version and the records of the routes in [done] but not for the record
    of the next route [r], [write] throws "buf_len" and leaves the version
    and the records of [done] in the buffer. *)
Theorem write_keeps_earlier_records (buf buf_len v : Z)
    (done rest : list ip_route) (r : ip_route) (m : mem) :
  3 <= w ->
  0 <= HEADER_LENGTH ->
  Forall wf_ip_route (done ++ r :: rest) ->
  HEADER_LENGTH + 4 + records_size done <= buf_len ->
  buf_len < HEADER_LENGTH + 4 + records_size done
            + Z.of_nat (List.length (record_octets r)) ->
  buf_len < 2 ^ w ->
  snd (write_payload buf buf_len v (done ++ r :: rest) m) = Throw err_buf_len /\
  holds (fst (write_payload buf buf_len v (done ++ r :: rest) m))
    (buf + HEADER_LENGTH)
    ([octet (v mod 2 ^ 32) 3; octet (v mod 2 ^ 32) 2;
      octet (v mod 2 ^ 32) 1; octet (v mod 2 ^ 32) 0]
     ++ records_octets done).
Proof.
  intros Hw HH Hwf Hfits Hshort Hmax.
  apply Forall_app in Hwf as [Hdone Hrest].
  inversion Hrest as [|? ? Hr _]; subst.
  pose proof (records_size_nonneg done) as Hpos.
  pose proof (record_octets_length r Hr) as Hlen.
  rewrite write_payload_enter by lia.
  rewrite sz_add_0_4 by assumption.
  rewrite (sz_sub_small buf_len HEADER_LENGTH) by lia.
  rewrite sz_sub_small by lia.
  rewrite write_routes_app by (assumption || lia).
  cbn [write_routes]. unfold bind.
  match goal with
  | |- context [apply_visitor ?p ?n r ?m1] =>
      destruct (apply_visitor_too_small p n r m1 Hr ltac:(lia))
        as [Hthrow Hframe];
      destruct (apply_visitor p n r m1) as [m2 o]
  end.
  cbn [fst snd] in *. subst o. cbn [fst snd]. split; [reflexivity|].
  eapply holds_ext; [|apply holds_version_and_records; reflexivity].
  intros a Ha. rewrite length_app in Ha. cbn [List.length] in Ha.
  apply Hframe. unfold records_size in *. lia.
Qed.

(** X9. From room for the header and the version on, [write] leaves the
    version after the header with its most significant octet first, on a
    little-endian and on a big-endian host, whatever then happens to the
    records; [version] on a message whose payload starts there returns the
    version that was written, reduced to 32 bits. *)
Theorem version_written_big_endian (buf buf_len v : Z)
    (routes_in : list ip_route) (m : mem) (msg : routes_message) :
  0 <= HEADER_LENGTH ->
  Forall wf_ip_route routes_in ->
  HEADER_LENGTH + 4 <= buf_len < 2 ^ w ->
  payload (base msg) = buf + HEADER_LENGTH ->
  holds (fst (write_payload buf buf_len v routes_in m)) (buf + HEADER_LENGTH)
    [octet (v mod 2 ^ 32) 3; octet (v mod 2 ^ 32) 2;
     octet (v mod 2 ^ 32) 1; octet (v mod 2 ^ 32) 0] /\
  version (fst (write_payload buf buf_len v routes_in m)) msg = v mod 2 ^ 32.
Proof.
  intros HH Hwf Hlen Hpayload.
  assert (Hheld : holds (fst (write_payload buf buf_len v routes_in m))
                    (buf + HEADER_LENGTH)
                    [octet (v mod 2 ^ 32) 3; octet (v mod 2 ^ 32) 2;
                     octet (v mod 2 ^ 32) 1; octet (v mod 2 ^ 32) 0]).
  { rewrite write_payload_enter by lia.
    rewrite (sz_sub_small buf_len HEADER_LENGTH) by lia.
    rewrite sz_sub_small by lia.
    eapply holds_ext; [|apply holds_store_bytes].
    intros a Ha. cbn [List.length] in Ha.
    apply write_routes_frame; [assumption|lia|lia]. }
  split; [exact Hheld|].
  apply version_of_stored; [apply Z.mod_pos_bound; lia|].
  now rewrite Hpayload.
Qed.

(** The writer keeps the low eight bits of a prefix length: a route whose
    prefix length is raised by a multiple of 256 is written as the same
    octets, with the same outcome. *)
Lemma apply_visitor_prefix_length_mod
    (A : AddressType) (ir : base_ip_route) (pl p n : Z) (m : mem) :
  apply_visitor p n (make_ip_route A (with_prefix_length ir pl)) m
  = apply_visitor p n (make_ip_route A (with_prefix_length ir (pl mod 256))) m.
Proof.
  rewrite !apply_visitor_make. unfold write_record, with_prefix_length, set_u8.
  cbn [network_address gateway address prefix_length].
  rewrite Z.mod_mod by lia. reflexivity.
Qed.

(** X10. A prefix length comes back reduced modulo 256.  A route with any
    prefix length [pl], written in enough room and decoded, is returned with
    the prefix length [pl mod 256]; the writer stores the low eight bits and
    nothing marks the loss. *)
Theorem prefix_length_comes_back_mod_256 (buf buf_len v : Z)
    (A : AddressType) (ir : base_ip_route) (pl : Z) (m : mem) :
  3 <= w ->
  0 <= HEADER_LENGTH ->
  wf_ip_route (make_ip_route A (with_prefix_length ir (pl mod 256))) ->
  ~ ipv6_with_gateway (make_ip_route A (with_prefix_length ir (pl mod 256))) ->
  HEADER_LENGTH + 4
    + records_size [make_ip_route A (with_prefix_length ir (pl mod 256))]
    <= buf_len < 2 ^ w ->
  exists m',
    write_payload buf buf_len v
      [make_ip_route A (with_prefix_length ir pl)] m
    = (m', Ok (4 + records_size
                     [make_ip_route A (with_prefix_length ir (pl mod 256))])) /\
    forall extra,
      snd (routes (2 + extra) m'
             (fresh (buf + HEADER_LENGTH)
                (4 + records_size
                       [make_ip_route A
                          (with_prefix_length ir (pl mod 256))])))
      = Ok [make_ip_route A (with_prefix_length ir (pl mod 256))].
Proof.
  intros Hw HH Hwf Hno Hlen.
  set (r_out := make_ip_route A (with_prefix_length ir (pl mod 256))) in *.
  pose proof (records_size_nonneg [r_out]) as Hpos.
  pose proof (pow2_w_ge 3 ltac:(lia)) as H8. change (2 ^ 3) with 8 in H8.
  assert (Hall : Forall wf_ip_route [r_out]) by (constructor; auto).
  assert (Hnone : Forall (fun r => ~ ipv6_with_gateway r) [r_out])
    by (constructor; auto).
  assert (Hsame : forall p n rq m1,
             write_routes [make_ip_route A (with_prefix_length ir pl)]
               p n rq m1
             = write_routes [r_out] p n rq m1).
  { intros p n rq m1. cbn [write_routes]. unfold bind.
    now rewrite apply_visitor_prefix_length_mod. }
  rewrite write_payload_enter by lia. rewrite Hsame.
  rewrite sz_add_0_4 by assumption.
  rewrite (sz_sub_small buf_len HEADER_LENGTH) by lia.
  rewrite sz_sub_small by lia.
  rewrite write_routes_octets by (assumption || lia).
  eexists. split; [reflexivity|].
  intros extra.
  match goal with
  | |- snd (routes _ ?m1 ?msg) = _ =>
      assert (Hr : snd (routes 2 m1 msg) = Ok [r_out])
  end.
  { unfold routes, fresh. cbn [m_routes_cache base payload length].
    rewrite sz_sub_small by lia.
    replace (4 + records_size [r_out] - 4) with (records_size [r_out]) by lia.
    rewrite (routes_loop_octets [r_out]);
      [reflexivity|assumption|assumption|apply holds_store_bytes
      |reflexivity|lia]. }
  rewrite routes_more_fuel; [exact Hr|]. rewrite Hr. discriminate.
Qed.

(** X12. Whatever the buffer and the routes, the only exception [write]
    throws before it calls [message::write] is "buf_len". *)
Theorem write_payload_throws_only_buf_len (buf buf_len v : Z)
    (routes_in : list ip_route) (m m' : mem) (e : exn) :
  write_payload buf buf_len v routes_in m = (m', Throw e) ->
  BufferTooSmall e.
Proof.
  unfold write_payload, BufferTooSmall.
  destruct (buf_len <? HEADER_LENGTH); [now intros [= _ <-]|].
  unfold bind, set_u32, store. apply write_routes_throws.
Qed.

(** * More of the decoder *)

(** ** One read, looked at closely *)

Lemma load_bytes_octets (m : mem) (n : nat) :
  octets m -> forall p, Forall is_octet (load_bytes m p n).
Proof.
  intros Hm. induction n as [|n IH]; intros p; cbn [load_bytes];
    constructor; [apply Hm|apply IH].
Qed.

(** What a successful templated read consumed and what it returned. *)
Lemma read_next_base_ip_route_step (A : AddressType) (hg : bool) (m : mem)
    (d d' : reader) (ir : base_ip_route) :
  0 <= m_buf_len d < 2 ^ w ->
  read_next_base_ip_route A hg m d = Ok (ir, d') ->
  m_buf d' = m_buf d + (Z.of_nat (List.length (record_octets_of A ir)) - 1) /\
  m_buf_len d'
    = m_buf_len d - (Z.of_nat (List.length (record_octets_of A ir)) - 1) /\
  0 <= m_buf_len d' /\
  6 <= Z.of_nat (List.length (record_octets_of A ir)) /\
  (octets m -> wf_base_ip_route A ir).
Proof.
  intros Hr. rewrite read_next_base_ip_route_eq by assumption. cbv zeta.
  pose proof (bytes_size_pos A) as HA.
  assert (Hsize : Z.of_nat (Z.to_nat (bytes_size A)) = bytes_size A)
    by (apply Z2Nat.id; lia).
  assert (Hpl : is_octet (m (m_buf d) mod 256))
    by (apply Z.mod_pos_bound; lia).
  destruct (Z.eqb_spec (m_buf_len d) 0); [discriminate|].
  destruct (Z.ltb_spec (m_buf_len d - 1) (bytes_size A)); [discriminate|].
  destruct hg.
  - destruct (Z.ltb_spec (m_buf_len d - 1 - bytes_size A) (bytes_size A));
      [discriminate|].
    intros [= <- <-].
    unfold record_octets_of, gateway_octets, wf_base_ip_route, wf_address.
    cbn [m_buf m_buf_len gateway network_address address prefix_length
           List.length].
    rewrite length_app, !load_bytes_length.
    split; [lia|]. split; [lia|]. split; [lia|]. split; [lia|].
    intros Hm. split; [|split; [exact Hpl|]];
      (split; [lia|now apply load_bytes_octets]).
  - intros [= <- <-].
    unfold record_octets_of, gateway_octets, wf_base_ip_route, wf_address.
    cbn [m_buf m_buf_len gateway network_address address prefix_length
           List.length].
    rewrite length_app, !load_bytes_length. cbn [List.length].
    split; [lia|]. split; [lia|]. split; [lia|]. split; [lia|].
    intros Hm. split; [|split; [exact Hpl|exact I]].
    split; [lia|now apply load_bytes_octets].
Qed.

(** What a successful read consumed and what it returned: the octets it
    took are as many as the record of the route it returned has. *)
Lemma read_next_ip_route_step (m : mem) (d d' : reader) (r : ip_route) :
  0 <= m_buf_len d < 2 ^ w ->
  read_next_ip_route m d = Ok (Some r, d') ->
  m_buf d' = m_buf d + Z.of_nat (List.length (record_octets r)) /\
  m_buf_len d' = m_buf_len d - Z.of_nat (List.length (record_octets r)) /\
  0 <= m_buf_len d' /\
  6 <= Z.of_nat (List.length (record_octets r)) /\
  (octets m -> wf_ip_route r).
Proof.
  intros Hr. unfold read_next_ip_route.
  destruct (Z.eqb_spec (m_buf_len d) 0) as [Hz|Hnz]; [discriminate|].
  set (d1 := mk_reader (m_buf d + 1) (sz_sub (m_buf_len d) 1)).
  assert (Hd1 : m_buf d1 = m_buf d + 1 /\ m_buf_len d1 = m_buf_len d - 1).
  { unfold d1. cbn. rewrite sz_sub_small by lia. auto. }
  destruct Hd1 as [Hb1 Hl1].
  destruct (_ || _).
  - destruct (read_next_base_ip_route _ _ _ _) as [[ir d2]| |] eqn:Hbase;
      try discriminate.
    intros [= <- <-].
    apply read_next_base_ip_route_step in Hbase; [|lia].
    cbn [record_octets wf_ip_route].
    destruct Hbase as (H1 & H2 & H3 & H4 & H5).
    split; [lia|]. split; [lia|]. split; [lia|]. split; [lia|exact H5].
  - destruct (_ || _); [|discriminate].
    destruct (read_next_base_ip_route _ _ _ _) as [[ir d2]| |] eqn:Hbase;
      try discriminate.
    intros [= <- <-].
    apply read_next_base_ip_route_step in Hbase; [|lia].
    cbn [record_octets wf_ip_route].
    destruct Hbase as (H1 & H2 & H3 & H4 & H5).
    split; [lia|]. split; [lia|]. split; [lia|]. split; [lia|exact H5].
Qed.

(** ** Reads stay inside the buffer *)

Lemma read_next_base_ip_route_ext (A : AddressType) (hg : bool)
    (m m' : mem) (d : reader) :
  0 <= m_buf_len d < 2 ^ w ->
  (forall a, m_buf d <= a < m_buf d + m_buf_len d -> m a = m' a) ->
  read_next_base_ip_route A hg m d = read_next_base_ip_route A hg m' d.
Proof.
  intros Hr Hagree. rewrite !read_next_base_ip_route_eq by assumption.
  cbv zeta. pose proof (bytes_size_pos A) as HA.
  destruct (Z.eqb_spec (m_buf_len d) 0); [reflexivity|].
  destruct (Z.ltb_spec (m_buf_len d - 1) (bytes_size A)); [reflexivity|].
  rewrite (Hagree (m_buf d)) by lia.
  rewrite (load_bytes_ext m m' (Z.to_nat (bytes_size A)) (m_buf d + 1))
    by (intros a Ha; apply Hagree; lia).
  destruct hg; [|reflexivity].
  destruct (Z.ltb_spec (m_buf_len d - 1 - bytes_size A) (bytes_size A));
    [reflexivity|].
  rewrite (load_bytes_ext m m' (Z.to_nat (bytes_size A))
             (m_buf d + 1 + bytes_size A))
    by (intros a Ha; apply Hagree; lia).
  reflexivity.
Qed.

Lemma read_next_ip_route_ext (m m' : mem) (d : reader) :
  0 <= m_buf_len d < 2 ^ w ->
  (forall a, m_buf d <= a < m_buf d + m_buf_len d -> m a = m' a) ->
  read_next_ip_route m d = read_next_ip_route m' d.
Proof.
  intros Hr Hagree. unfold read_next_ip_route.
  destruct (Z.eqb_spec (m_buf_len d) 0) as [Hz|Hnz]; [reflexivity|].
  rewrite (Hagree (m_buf d)) by lia.
  assert (Hbase : forall A hg,
             read_next_base_ip_route A hg m
               (mk_reader (m_buf d + 1) (sz_sub (m_buf_len d) 1))
             = read_next_base_ip_route A hg m'
                 (mk_reader (m_buf d + 1) (sz_sub (m_buf_len d) 1))).
  { intros A hg. apply read_next_base_ip_route_ext;
      cbn [m_buf m_buf_len]; rewrite sz_sub_small by lia; [lia|].
    intros a Ha. apply Hagree. lia. }
  rewrite !Hbase. reflexivity.
Qed.

(** The loop of [routes] looks at no octet outside the buffer it was given. *)
Lemma routes_loop_ext (fuel : nat) :
  forall (m m' : mem) (d : reader) (result : ip_route_set),
    0 <= m_buf_len d < 2 ^ w ->
    (forall a, m_buf d <= a < m_buf d + m_buf_len d -> m a = m' a) ->
    routes_loop fuel m d result = routes_loop fuel m' d result.
Proof.
  induction fuel as [|fuel IH]; intros m m' d result Hr Hagree;
    [reflexivity|].
  cbn [routes_loop].
  rewrite <- (read_next_ip_route_ext m m' d Hr Hagree).
  destruct (read_next_ip_route m d) as [[[r|] d']| |] eqn:Hread;
    try reflexivity.
  apply read_next_ip_route_step in Hread as (Hb & Hl & Hpos & Hk & _);
    [|assumption].
  apply IH; [lia|]. intros a Ha. apply Hagree. lia.
Qed.

(** X6. The decoder reads inside the payload only.  When the declared
    length is at least four, [version] and [routes] give the same on two
    memories that agree on the octets of the payload, whatever lies before
    and after it. *)
Theorem decoder_reads_only_the_payload (fuel : nat) (m m' : mem)
    (msg : routes_message) :
  4 <= length (base msg) < 2 ^ w ->
  (forall a,
     payload (base msg) <= a < payload (base msg) + length (base msg) ->
     m a = m' a) ->
  version m msg = version m' msg /\
  routes fuel m msg = routes fuel m' msg.
Proof.
  intros Hlen Hagree. split.
  - unfold version, get_u32.
    rewrite !(Hagree _) by lia. reflexivity.
  - unfold routes. destruct (m_routes_cache msg); [reflexivity|].
    rewrite (routes_loop_ext fuel m m'); [reflexivity| |];
      cbn [m_buf m_buf_len]; rewrite sz_sub_small by lia; [lia|].
    intros a Ha. apply Hagree. lia.
Qed.

(** ** A decode that returns has used the whole payload *)

(** The routes the loop read, in the order it read them. *)
Lemma routes_loop_stream (fuel : nat) :
  forall (m : mem) (d : reader) (result rs : ip_route_set),
    0 <= m_buf_len d < 2 ^ w ->
    routes_loop fuel m d result = Ok rs ->
    exists stream,
      rs = insert_all stream result /\
      records_size stream = m_buf_len d /\
      (octets m -> Forall wf_ip_route stream).
Proof.
  induction fuel as [|fuel IH]; intros m d result rs Hr; [discriminate|].
  cbn [routes_loop].
  destruct (read_next_ip_route m d) as [[[r|] d']| |] eqn:Hread;
    try discriminate.
  - intros Hloop.
    apply read_next_ip_route_step in Hread as (Hb & Hl & Hpos & Hk & Hwf);
      [|assumption].
    apply IH in Hloop as (stream & Hrs & Hsize & Hall); [|lia].
    exists (r :: stream). split; [exact Hrs|]. split.
    + rewrite records_size_cons. lia.
    + intros Hm. constructor; auto.
  - intros [= <-]. apply read_next_ip_route_false in Hread as [Hz _].
    exists []. split; [reflexivity|]. split; [now rewrite Hz|].
    intros _. constructor.
Qed.

(** X7. A decode that returns a set has consumed the declared payload
    exactly.  The set is made of the routes of a sequence of records whose
    sizes (6, 10 or 18 octets each as the reader takes them), with the four
    octets of the version, add up to the declared length: no octet is left
    over and no record is cut. *)
Theorem routes_accounts_for_every_octet (fuel : nat) (m : mem)
    (msg msg' : routes_message) (rs : ip_route_set) :
  m_routes_cache msg = None ->
  4 <= length (base msg) < 2 ^ w ->
  routes fuel m msg = (msg', Ok rs) ->
  exists stream,
    rs = insert_all stream [] /\
    4 + records_size stream = length (base msg).
Proof.
  intros Hcache Hlen Hr.
  apply routes_ok_inv in Hr as [_ Hloop]. rewrite Hcache in Hloop.
  apply routes_loop_stream in Hloop as (stream & Hrs & Hsize & _);
    cbn [m_buf_len] in *; rewrite sz_sub_small in * by lia; [|lia].
  exists stream. split; [exact Hrs|lia].
Qed.

(** X13. Over a memory of octets, every route of a decoded set is
    well-formed: its address, and its gateway when it has one, have the 4 or
    16 octets of its family, and its prefix length is an octet. *)
Theorem decoded_routes_are_well_formed (fuel : nat) (m : mem)
    (msg msg' : routes_message) (rs : ip_route_set) (r : ip_route) :
  octets m ->
  m_routes_cache msg = None ->
  0 <= w ->
  routes fuel m msg = (msg', Ok rs) ->
  In r rs ->
  wf_ip_route r.
Proof.
  intros Hm Hcache Hw Hr Hin.
  apply routes_ok_inv in Hr as [_ Hloop]. rewrite Hcache in Hloop.
  apply routes_loop_stream in Hloop as (stream & Hrs & _ & Hall);
    [|cbn [m_buf_len]; now apply sz_range].
  subst rs. apply insert_all_In in Hin as [Hin|[]].
  specialize (Hall Hm). rewrite Forall_forall in Hall. now apply Hall.
Qed.

(** ** Torn records *)

(** X5. A record that is cut short is refused, from any point of the
    loop of [routes] and whatever was collected so far.  After the tag of an
    IPv4 route fewer than 5 more octets, after the tag of an IPv4 route with
    gateway fewer than 9, after either IPv6 tag fewer than 17: the loop
    throws "Not enough bytes for the expected prefix length" when the tag is
    the last octet and "Not enough bytes for the expected IP address"
    otherwise. *)
Theorem torn_record_throws (fuel : nat) (m : mem) (p n : Z)
    (result : ip_route_set) :
  1 <= n < 2 ^ w ->
  (m p = INAT_IPV4 /\ n < 6) \/
  (m p = INAT_IPV4_GATEWAY /\ n < 10) \/
  ((m p = INAT_IPV6 \/ m p = INAT_IPV6_GATEWAY) /\ n < 18) ->
  routes_loop (S fuel) m (mk_reader p n) result
    = Throw (if n =? 1 then err_prefix_length else err_ip_address).
Proof.
  intros Hn Hcase. cbn [routes_loop]. unfold read_next_ip_route.
  cbn [m_buf m_buf_len].
  destruct (Z.eqb_spec n 0) as [|_]; [lia|].
  rewrite sz_sub_small by lia.
  assert (Hbase : forall A (hg : bool),
             n - 1 < 1 + bytes_size A + (if hg then bytes_size A else 0) ->
             read_next_base_ip_route A hg m (mk_reader (p + 1) (n - 1))
             = Throw (if n =? 1 then err_prefix_length else err_ip_address)).
  { intros A hg Hshort. pose proof (bytes_size_pos A) as HA.
    rewrite read_next_base_ip_route_eq by (cbn; lia).
    cbn [m_buf m_buf_len]. cbv zeta.
    destruct (Z.eqb_spec n 1) as [->|Hn1]; [reflexivity|].
    destruct (Z.eqb_spec (n - 1) 0); [lia|].
    destruct (Z.ltb_spec (n - 1 - 1) (bytes_size A)); [reflexivity|].
    destruct hg; [|lia].
    destruct (Z.ltb_spec (n - 1 - 1 - bytes_size A) (bytes_size A));
      [reflexivity|lia]. }
  destruct Hcase as [[Ht Hs]|[[Ht Hs]|[[Ht|Ht] Hs]]]; rewrite Ht;
    cbn [Z.eqb INAT_IPV4 INAT_IPV4_GATEWAY INAT_IPV6 INAT_IPV6_GATEWAY
           Pos.eqb orb];
    rewrite Hbase by (cbn [bytes_size]; lia); reflexivity.
Qed.

(** ** What the decoder throws *)

Lemma read_next_base_ip_route_throws (A : AddressType) (hg : bool)
    (m : mem) (d : reader) (e : exn) :
  read_next_base_ip_route A hg m d = Throw e -> TruncatedRecord e.
Proof.
  unfold read_next_base_ip_route, TruncatedRecord. cbv zeta.
  repeat match goal with
         | |- context [if ?c then _ else _] => destruct c
         end; intros [= <-] || discriminate; auto.
Qed.

Lemma read_next_ip_route_throws (m : mem) (d : reader) (e : exn) :
  read_next_ip_route m d = Throw e ->
  TruncatedRecord e \/ UnknownRecordType e.
Proof.
  unfold read_next_ip_route.
  destruct (_ =? 0); [discriminate|].
  destruct (_ || _).
  - destruct (read_next_base_ip_route _ _ _ _) as [[ir d1]|e1|] eqn:Hbase;
      try discriminate.
    intros [= <-]. left. eapply read_next_base_ip_route_throws. eassumption.
  - destruct (_ || _).
    + destruct (read_next_base_ip_route _ _ _ _) as [[ir d1]|e1|] eqn:Hbase;
        try discriminate.
      intros [= <-]. left. eapply read_next_base_ip_route_throws. eassumption.
    + intros [= <-]. right. reflexivity.
Qed.

Lemma routes_loop_throws (fuel : nat) :
  forall (m : mem) (d : reader) (result : ip_route_set) (e : exn),
    routes_loop fuel m d result = Throw e ->
    TruncatedRecord e \/ UnknownRecordType e.
Proof.
  induction fuel as [|fuel IH]; intros m d result e; [discriminate|].
  cbn [routes_loop].
  destruct (read_next_ip_route m d) as [[[r|] d']|e1|] eqn:Hread;
    try discriminate.
  - apply IH.
  - intros [= <-]. eapply read_next_ip_route_throws. eassumption.
Qed.

(** X11. Whatever the payload, the only exceptions [routes] throws are the
    two "Not enough bytes" errors of a cut record and "Unknown route type in
    message", and it throws only on a message whose cache is empty. *)
Theorem routes_throws_only_decode_errors (fuel : nat) (m : mem)
    (msg msg' : routes_message) (e : exn) :
  routes fuel m msg = (msg', Throw e) ->
  (TruncatedRecord e \/ UnknownRecordType e) /\
  m_routes_cache msg = None.
Proof.
  unfold routes.
  destruct (m_routes_cache msg) as [cached|]; [discriminate|].
  destruct (routes_loop fuel m _ []) as [rs|e1|] eqn:Hloop; try discriminate.
  intros [= _ <-]. split; [|reflexivity].
  eapply routes_loop_throws. eassumption.
Qed.

(** ** The loop of [routes] is short *)

(** Every record takes at least six octets, so a sixth of the remaining
    length, and one more, bounds the number of reads. *)
Lemma routes_loop_bounded (fuel : nat) :
  forall (m : mem) (d : reader) (result : ip_route_set),
    0 <= m_buf_len d < 2 ^ w ->
    (Z.to_nat (m_buf_len d / 6) < fuel)%nat ->
    routes_loop fuel m d result <> Timeout.
Proof.
  induction fuel as [|fuel IH]; intros m d result Hr Hfuel; [lia|].
  cbn [routes_loop].
  pose proof (read_next_ip_route_no_timeout m d) as Hnt.
  destruct (read_next_ip_route m d) as [[[r|] d']| |] eqn:Hread;
    try discriminate; try contradiction.
  apply read_next_ip_route_step in Hread as (_ & Hl & Hpos & Hk & _);
    [|assumption].
  apply IH; [lia|].
  assert (m_buf_len d' / 6 <= m_buf_len d / 6 - 1)
    by (Z.div_mod_to_equations; lia).
  assert (0 <= m_buf_len d' / 6) by (apply Z.div_pos; lia).
  lia.
Qed.

(** X8. The loop of [routes] ends: it reads at most one record for every
    six octets of remaining length, and once more to find the buffer empty.
    With that much fuel [routes] returns a set or throws, and more fuel
    changes nothing. *)
Theorem routes_terminates (fuel extra : nat) (m : mem)
    (msg : routes_message) :
  0 <= w ->
  (Z.to_nat (sz_sub (length (base msg)) 4 / 6) < fuel)%nat ->
  snd (routes fuel m msg) <> Timeout /\
  routes (fuel + extra) m msg = routes fuel m msg.
Proof.
  intros Hw Hfuel.
  assert (Hnt : snd (routes fuel m msg) <> Timeout).
  { unfold routes. destruct (m_routes_cache msg); [discriminate|].
    pose proof (routes_loop_bounded fuel m
                  (mk_reader (payload (base msg) + 4)
                     (sz_sub (length (base msg)) 4)) []) as Hloop.
    cbn [m_buf_len] in Hloop. specialize (Hloop (sz_range _ Hw) Hfuel).
    destruct (routes_loop fuel m _ []); cbn [snd]; congruence. }
  split; [exact Hnt|]. now apply routes_more_fuel.
Qed.

(** * Encoder and decoder together *)

(** In room for everything, what [write] returns before it calls
    [message::write]: the memory after two stores, and the size. *)
Lemma write_payload_fits (buf buf_len v : Z) (routes_in : list ip_route)
    (m : mem) :
  3 <= w ->
  0 <= HEADER_LENGTH ->
  Forall wf_ip_route routes_in ->
  HEADER_LENGTH + 4 + records_size routes_in <= buf_len < 2 ^ w ->
  write_payload buf buf_len v routes_in m =
    (store_bytes (records_octets routes_in) (buf + HEADER_LENGTH + 4)
       (store_bytes
          [octet (v mod 2 ^ 32) 3; octet (v mod 2 ^ 32) 2;
           octet (v mod 2 ^ 32) 1; octet (v mod 2 ^ 32) 0]
          (buf + HEADER_LENGTH) m),
     Ok (4 + records_size routes_in)).
Proof.
  intros Hw HH Hwf Hlen.
  pose proof (records_size_nonneg routes_in) as Hpos.
  rewrite write_payload_enter by lia.
  rewrite sz_add_0_4 by assumption.
  rewrite (sz_sub_small buf_len HEADER_LENGTH) by lia.
  rewrite sz_sub_small by lia.
  rewrite write_routes_octets by (assumption || lia). reflexivity.
Qed.

(** X14. The layout [write] produces.  For any well-formed routes, IPv6
    routes with a gateway among them, and a buffer with room for all: after
    the header come the four octets of the version, most significant first,
    then for each route in turn its tag, its prefix length, its address and,
    if it has one, its gateway, with nothing in between; the size is their
    number; no other octet of memory changes. *)
Theorem write_payload_layout (buf buf_len v : Z) (routes_in : list ip_route)
    (m : mem) :
  3 <= w ->
  0 <= HEADER_LENGTH ->
  Forall wf_ip_route routes_in ->
  HEADER_LENGTH + 4 + records_size routes_in <= buf_len < 2 ^ w ->
  exists m',
    write_payload buf buf_len v routes_in m
      = (m', Ok (4 + records_size routes_in)) /\
    holds m' (buf + HEADER_LENGTH)
      ([octet (v mod 2 ^ 32) 3; octet (v mod 2 ^ 32) 2;
        octet (v mod 2 ^ 32) 1; octet (v mod 2 ^ 32) 0]
       ++ records_octets routes_in) /\
    forall a,
      a < buf + HEADER_LENGTH \/
      buf + HEADER_LENGTH + 4 + records_size routes_in <= a ->
      m' a = m a.
Proof.
  intros Hw HH Hwf Hlen.
  rewrite write_payload_fits by assumption.
  eexists. split; [reflexivity|]. split.
  - apply holds_version_and_records. reflexivity.
  - intros a Ha. unfold records_size in Ha.
    rewrite store_bytes_outside by lia.
    apply store_bytes_outside. cbn [List.length]. lia.
Qed.

(** X15. Write, construct, read.  Over the payload [write] produced for
    well-formed routes without an IPv6 gateway, the constructor from a
    message succeeds, and [routes] on the message it returns gives the
    routes that were written, as a set, on every later call and whatever is
    done to the buffer in the meantime. *)
Theorem constructed_over_written_payload (buf buf_len v : Z)
    (routes_in : list ip_route) (m : mem) (fuel : nat) :
  3 <= w ->
  0 <= HEADER_LENGTH ->
  Forall wf_ip_route routes_in ->
  Forall (fun r => ~ ipv6_with_gateway r) routes_in ->
  HEADER_LENGTH + 4 + records_size routes_in <= buf_len < 2 ^ w ->
  (List.length routes_in < fuel)%nat ->
  exists m' msg rs,
    write_payload buf buf_len v routes_in m
      = (m', Ok (4 + records_size routes_in)) /\
    routes_message_of_message fuel m'
      (mk_message (buf + HEADER_LENGTH) (4 + records_size routes_in))
      = Ok msg /\
    same_set rs routes_in /\
    forall fuel' m'', routes fuel' m'' msg = (msg, Ok rs).
Proof.
  intros Hw HH Hwf Hno Hlen Hfuel.
  pose proof (records_size_nonneg routes_in) as Hpos.
  pose proof (pow2_w_ge 3 ltac:(lia)) as H8. change (2 ^ 3) with 8 in H8.
  rewrite write_payload_fits by assumption.
  set (m' := store_bytes (records_octets routes_in) (buf + HEADER_LENGTH + 4) _).
  set (b := mk_message (buf + HEADER_LENGTH) (4 + records_size routes_in)).
  assert (Hloop : routes_loop fuel m'
                    (mk_reader (payload b + 4) (sz_sub (length b) 4)) []
                  = Ok (insert_all routes_in [])).
  { replace fuel
      with (S (List.length routes_in) + (fuel - S (List.length routes_in)))%nat
      by lia.
    unfold b. cbn [payload length]. rewrite sz_sub_small by lia.
    replace (4 + records_size routes_in - 4) with (records_size routes_in)
      by lia.
    assert (Hcore : routes_loop (S (List.length routes_in)) m'
                      (mk_reader (buf + HEADER_LENGTH + 4)
                         (records_size routes_in)) []
                    = Ok (insert_all routes_in [])).
    { apply routes_loop_octets; try assumption;
        [apply holds_store_bytes|reflexivity|lia]. }
    rewrite routes_loop_more_fuel; [exact Hcore|].
    rewrite Hcore. discriminate. }
  exists m', (mk_routes_message b (Some (insert_all routes_in []))),
    (insert_all routes_in []).
  split; [reflexivity|]. split; [|split].
  - unfold routes_message_of_message, routes.
    cbn [m_routes_cache base]. now rewrite Hloop.
  - intros r. rewrite insert_all_In. cbn [In]. tauto.
  - intros fuel' m''. apply routes_cached. reflexivity.
Qed.

(** * The wrapped length, record by record *)




End Properties.

(** * The code on concrete inputs *)

(** ** The gateway of an IPv6 record *)

(** C2, what the code does.  A complete record tagged IPv4 with gateway is
    read with its gateway and its ten octets are consumed.  A complete record
    tagged IPv6 with gateway is read as a route without gateway: only
    eighteen of its thirty-four octets are consumed, and the sixteen octets of
    the gateway stay in the buffer to be read as the next record.  No input
    at all makes the reader yield an IPv6 route that has a gateway. *)
Theorem ipv6_gateway_is_not_read :
  read_next_ip_route (E := host64) v4_gateway_record (mk_reader 0 10)
    = Ok (Some r4g, mk_reader 10 0) /\
  read_next_ip_route (E := host64) v6_gateway_record (mk_reader 0 34)
    = Ok (Some r6, mk_reader 18 16) /\
  (forall (E : Envelope) (m : mem) (d : reader),
     match read_next_ip_route m d with
     | Ok (Some (ipv6_route ir), _) => gateway ir = None
     | _ => True
     end).
Proof.
  split; [vm_compute; reflexivity|]. split; [vm_compute; reflexivity|].
  intros E m d.
  destruct (read_next_ip_route m d) as [[[[ir|ir]|] d']| |] eqn:Hread; trivial.
  eapply ipv6_route_read_has_no_gateway. eassumption.
Qed.

(** C1, what the code does.  The set holding the one route
    2001:db8::/32 via fe80::1 is encoded into 38 octets, and decoding them
    throws "Unknown route type in message": the first octet of the gateway is
    taken for a tag.  With a gateway whose octets read as records, decoding
    returns the right version and a set of three routes, none of which is the
    route that was encoded. *)
Theorem roundtrip_fails_on_ipv6_gateway :
  (exists m,
     write_payload (E := host64) 0 42 1 [r6g] zero_mem = (m, Ok 38) /\
     forall extra,
       routes (E := host64) (2 + extra) m (fresh 4 38)
         = (fresh 4 38, Throw err_unknown_type)) /\
  (exists m,
     write_payload (E := host64) 0 42 7 [r6g_records] zero_mem = (m, Ok 38) /\
     version (E := host64) m (fresh 4 38) = 7 /\
     (forall extra,
        snd (routes (E := host64) (4 + extra) m (fresh 4 38))
          = Ok r6g_records_decoded) /\
     ~ same_set r6g_records_decoded [r6g_records]).
Proof.
  split.
  - eexists. split; [vm_compute; reflexivity|].
    intros extra. vm_compute. reflexivity.
  - eexists. split; [vm_compute; reflexivity|].
    split; [vm_compute; reflexivity|]. split.
    + intros extra. vm_compute. reflexivity.
    + intros Hsame. destruct (Hsame r6g_records) as [_ Hin].
      specialize (Hin (or_introl eq_refl)).
      cbn in Hin. destruct Hin as [H|[H|[H|[]]]]; discriminate H.
Qed.

(** ** Torn records *)

(** C6, what the code does.  The payload is a version and a record tagged
    IPv6 with gateway that ends after its network address: the gateway is
    missing.  [routes] does not throw; it returns the route without gateway
    and caches it. *)
Theorem torn_ipv6_gateway_record_is_accepted :
  forall extra,
    routes (E := host64) (2 + extra) torn_v6_payload (fresh 0 22)
      = (mk_routes_message (mk_message 0 22) (Some [r6]), Ok [r6]).
Proof.
  intros extra. vm_compute. reflexivity.
Qed.

(** ** A declared length below four *)

(** C4, what the code does.  With a declared length of 0 over zeroed
    memory, [routes] throws "Unknown route type in message" for the octet at
    offset 4, which is not part of the payload.  With a declared length of 2,
    [version] is put together from four octets, the reader starts at offset 4
    with [2 ^ 64 - 2] octets to go, its first read returns a route made of
    octets 4 to 9, and [routes] fails on the octet at offset 10. *)
Theorem short_header_is_not_refused :
  (forall extra,
     routes (E := host64) (1 + extra) zero_mem (fresh 0 0)
       = (fresh 0 0, Throw err_unknown_type)) /\
  version (E := host64) short_payload (fresh 0 2) = 9 /\
  sz_sub (E := host64) (length (base (fresh 0 2))) 4 = 2 ^ 64 - 2 /\
  read_next_ip_route (E := host64) short_payload (mk_reader 4 (2 ^ 64 - 2))
    = Ok (Some r4, mk_reader 10 (2 ^ 64 - 8)) /\
  (forall extra,
     routes (E := host64) (2 + extra) short_payload (fresh 0 2)
       = (fresh 0 2, Throw err_unknown_type)).
Proof.
  split; [|split; [|split; [|split]]]; try intros extra;
    vm_compute; reflexivity.
Qed.

(** * The general theorems at concrete inputs *)

(** C10 at 10.1.0.0/16 via 10.0.0.254, written at address 8 with nine octets
    of room: six are stored, the gateway is refused. *)
Lemma write_record_gateway_partial_witness :
  gateway (mk_route (mk_network_address [10; 1; 0; 0] 16)
             (Some [10; 0; 0; 254])) = Some [10; 0; 0; 254] /\
  Z.of_nat (List.length [10; 1; 0; 0]) = bytes_size address_v4 /\
  2 + bytes_size address_v4 <= 9 < 2 + 2 * bytes_size address_v4 /\
  exists m',
    apply_visitor 8 9 r4g zero_mem = (m', Throw err_buf_len) /\
    m' 8 = get_address_type address_v4 true /\
    m' (8 + 1) = 16 mod 256 /\
    (forall i, 0 <= i < bytes_size address_v4 ->
       m' (8 + 2 + i) = nth (Z.to_nat i) [10; 1; 0; 0] 0) /\
    (forall a, a < 8 \/ 8 + 2 + bytes_size address_v4 <= a ->
       m' a = zero_mem a).
Proof.
  split; [reflexivity|]. split; [reflexivity|]. split; [simpl; lia|].
  apply (write_record_gateway_partial address_v4
           (mk_route (mk_network_address [10; 1; 0; 0] 16)
              (Some [10; 0; 0; 254]))
           [10; 0; 0; 254] 8 9 zero_mem);
    [reflexivity | reflexivity | simpl; lia].
Defined.

(** C5 on a payload whose first record starts with the octet 9. *)
Lemma unknown_tag_throws_witness :
  m_buf_len (mk_reader 4 1) <> 0 /\
  ~ In (bad_tag_payload (m_buf (mk_reader 4 1)))
      [INAT_IPV4; INAT_IPV4_GATEWAY; INAT_IPV6; INAT_IPV6_GATEWAY] /\
  read_next_ip_route (E := host64) bad_tag_payload (mk_reader 4 1)
    = Throw err_unknown_type /\
  routes_loop (E := host64) 1 bad_tag_payload (mk_reader 4 1) [r4]
    = Throw err_unknown_type /\
  (m_routes_cache (fresh 0 5) = None ->
   mk_reader 4 1
     = mk_reader (payload (base (fresh 0 5)) + 4)
         (sz_sub (E := host64) (length (base (fresh 0 5))) 4) ->
   routes (E := host64) 1 bad_tag_payload (fresh 0 5)
     = (fresh 0 5, Throw err_unknown_type)) /\
  UnknownRecordType err_unknown_type.
Proof.
  assert (Hlen : m_buf_len (mk_reader 4 1) <> 0) by (simpl; lia).
  assert (Htag : ~ In (bad_tag_payload (m_buf (mk_reader 4 1)))
                   [INAT_IPV4; INAT_IPV4_GATEWAY; INAT_IPV6;
                    INAT_IPV6_GATEWAY]).
  { vm_compute. intros [H|[H|[H|[H|[]]]]]; discriminate H. }
  split; [exact Hlen|]. split; [exact Htag|].
  exact (unknown_tag_throws (E := host64) 0%nat bad_tag_payload
           (mk_reader 4 1) [r4] (fresh 0 5) Hlen Htag).
Defined.

(** C7 on a payload holding the record of [r4]: the first access decodes,
    the later ones do not. *)
Lemma routes_memoized_witness :
  routes (E := host64) 2 r4_payload (fresh 0 10)
    = (mk_routes_message (mk_message 0 10) (Some [r4]), Ok [r4]) /\
  (m_routes_cache (fresh 0 10) = None ->
   routes_loop (E := host64) 2 r4_payload
     (mk_reader (payload (base (fresh 0 10)) + 4)
        (sz_sub (E := host64) (length (base (fresh 0 10))) 4)) []
     = Ok [r4]) /\
  (forall cached, m_routes_cache (fresh 0 10) = Some cached ->
     [r4] = cached /\
     mk_routes_message (mk_message 0 10) (Some [r4]) = fresh 0 10) /\
  mk_routes_message (mk_message 0 10) (Some [r4])
    = mk_routes_message (base (fresh 0 10)) (Some [r4]) /\
  (forall fuel' m',
     routes (E := host64) fuel' m'
       (mk_routes_message (mk_message 0 10) (Some [r4]))
       = (mk_routes_message (mk_message 0 10) (Some [r4]), Ok [r4])).
Proof.
  assert (Hfirst : routes (E := host64) 2 r4_payload (fresh 0 10)
            = (mk_routes_message (mk_message 0 10) (Some [r4]), Ok [r4]))
    by (vm_compute; reflexivity).
  split; [exact Hfirst|].
  exact (routes_memoized (E := host64) 2%nat r4_payload (fresh 0 10)
           (mk_routes_message (mk_message 0 10) (Some [r4])) [r4] Hfirst).
Defined.

(** C8 on a payload with a torn IPv4 record, and on an encode of two routes
    into a buffer that has room for the first only. *)
Lemma failure_aborts_witness :
  m_routes_cache (fresh 0 6) = None /\
  routes_loop (E := host64) 1 torn_v4_payload
    (mk_reader (payload (base (fresh 0 6)) + 4)
       (sz_sub (E := host64) (length (base (fresh 0 6))) 4)) []
    = Throw err_ip_address /\
  snd (write_payload (E := host64) 0 23 1 [r4; r4g] zero_mem)
    = Throw err_buf_len /\
  (routes (E := host64) 1 torn_v4_payload (fresh 0 6)
     = (fresh 0 6, Throw err_ip_address) /\
   m_routes_cache (fst (routes (E := host64) 1 torn_v4_payload (fresh 0 6)))
     = None /\
   routes_message_of_message (E := host64) 1 torn_v4_payload
     (base (fresh 0 6)) = Throw err_ip_address /\
   (forall b l,
      message_ctor (Envelope := host64) torn_v4_payload b l
        = Ok (base (fresh 0 6)) ->
      routes_message_of_buffer (E := host64) 1 torn_v4_payload b l
        = Throw err_ip_address)) /\
  (snd (write (E := host64) 0 23 1 [r4; r4g] zero_mem) = Throw err_buf_len /\
   forall n, snd (write (E := host64) 0 23 1 [r4; r4g] zero_mem) <> Ok n).
Proof.
  assert (Hdec : routes_loop (E := host64) 1 torn_v4_payload
            (mk_reader (payload (base (fresh 0 6)) + 4)
               (sz_sub (E := host64) (length (base (fresh 0 6))) 4)) []
            = Throw err_ip_address) by (vm_compute; reflexivity).
  assert (Henc : snd (write_payload (E := host64) 0 23 1 [r4; r4g] zero_mem)
            = Throw err_buf_len) by (vm_compute; reflexivity).
  split; [reflexivity|]. split; [exact Hdec|]. split; [exact Henc|].
  exact (failure_aborts (E := host64) 1%nat torn_v4_payload (fresh 0 6)
           err_ip_address err_buf_len 0 23 1 [r4; r4g] zero_mem
           eq_refl Hdec Henc).
Defined.

(** C3 on a 64-bit host with a header of four octets: a buffer of seven
    octets for version [0x01020304] and the route 10.0.0.0/24, which need
    fourteen. *)
Lemma write_payload_version_overrun_witness :
  3 <= w (Envelope := host64) /\
  0 <= HEADER_LENGTH (Envelope := host64) /\
  HEADER_LENGTH (Envelope := host64) <= 7
    < HEADER_LENGTH (Envelope := host64) + 4 /\
  7 < 2 ^ w (Envelope := host64) /\
  Forall wf_ip_route [r4] /\
  4 + records_size [r4] < 2 ^ w (Envelope := host64) /\
  exists m',
    write_payload (E := host64) 0 7 16909060 [r4] zero_mem
      = (m', Ok (4 + records_size [r4])) /\
    holds m' (0 + HEADER_LENGTH (Envelope := host64))
      ([octet (16909060 mod 2 ^ 32) 3; octet (16909060 mod 2 ^ 32) 2;
        octet (16909060 mod 2 ^ 32) 1; octet (16909060 mod 2 ^ 32) 0]
       ++ records_octets [r4]) /\
    0 + 7 < 0 + HEADER_LENGTH (Envelope := host64) + 4 + records_size [r4].
Proof.
  assert (Hwf : Forall wf_ip_route [r4]).
  { constructor; [|constructor].
    cbn. unfold wf_base_ip_route, wf_address, is_octet. cbn.
    repeat split; try lia. repeat constructor; lia. }
  split; [simpl; lia|]. split; [simpl; lia|]. split; [simpl; lia|].
  split; [reflexivity|]. split; [exact Hwf|]. split; [reflexivity|].
  apply (write_payload_version_overrun (E := host64) 0 7 16909060 [r4]
           zero_mem);
    [simpl; lia | simpl; lia | simpl; lia | reflexivity | exact Hwf
    | reflexivity].
Defined.

(** * Further properties at concrete inputs *)

Lemma mem_of_list_octets (l : list Z) :
  Forall is_octet l -> octets (mem_of_list l).
Proof.
  intros Hl a. unfold mem_of_list.
  destruct (a <? 0); [unfold is_octet; lia|].
  destruct (Nat.lt_ge_cases (Z.to_nat a) (List.length l)) as [Hin|Hout].
  - rewrite Forall_forall in Hl. apply Hl. now apply nth_In.
  - rewrite nth_overflow by assumption. unfold is_octet. lia.
Qed.

Ltac octet_list :=
  repeat (constructor; [unfold is_octet; lia|]); constructor.

Ltac wf_sample_route :=
  cbn [wf_ip_route]; unfold wf_base_ip_route, wf_address;
  cbn [network_address address prefix_length gateway];
  split; [split; [reflexivity|octet_list]|];
  split; [unfold is_octet; lia|];
  first [exact I | split; [reflexivity|octet_list]].

Lemma sample_routes_wf : Forall wf_ip_route sample_routes.
Proof.
  unfold sample_routes, r4, r4g, r6, a6_net.
  constructor; [wf_sample_route|].
  constructor; [wf_sample_route|].
  constructor; [wf_sample_route|].
  constructor.
Qed.

Lemma sample_routes_no_ipv6_gateway :
  Forall (fun r => ~ ipv6_with_gateway r) sample_routes.
Proof.
  unfold sample_routes. repeat constructor; cbn; auto.
Qed.

Lemma sample_payload_octets : octets sample_payload.
Proof.
  apply mem_of_list_octets. vm_compute.
  repeat (constructor; [split; [discriminate|reflexivity]|]). constructor.
Qed.

(** X1 on a 64-bit host: version 7 and [sample_routes] in a buffer of
    exactly 42 octets. *)
Lemma roundtrip_without_ipv6_gateway_witness :
  3 <= w (Envelope := host64) /\
  0 <= HEADER_LENGTH (Envelope := host64) /\
  Forall wf_ip_route sample_routes /\
  Forall (fun r => ~ ipv6_with_gateway r) sample_routes /\
  HEADER_LENGTH (Envelope := host64) + 4 + records_size sample_routes <= 42
    < 2 ^ w (Envelope := host64) /\
  (let size := 4 + records_size sample_routes in
   let msg := fresh (0 + HEADER_LENGTH (Envelope := host64)) size in
   exists m' rs,
     write_payload (E := host64) 0 42 7 sample_routes zero_mem
       = (m', Ok size) /\
     (forall a,
        a < 0 + HEADER_LENGTH (Envelope := host64) \/
        0 + HEADER_LENGTH (Envelope := host64) + size <= a ->
        m' a = zero_mem a) /\
     version (E := host64) m' msg = 7 mod 2 ^ 32 /\
     (forall extra,
        snd (routes (E := host64)
               (S (List.length sample_routes) + extra) m' msg) = Ok rs) /\
     same_set rs sample_routes).
Proof.
  assert (Hw : 3 <= w (Envelope := host64)) by (simpl; lia).
  assert (HH : 0 <= HEADER_LENGTH (Envelope := host64)) by (simpl; lia).
  assert (Hlen : HEADER_LENGTH (Envelope := host64) + 4
                 + records_size sample_routes <= 42
                 < 2 ^ w (Envelope := host64))
    by (split; [discriminate|reflexivity]).
  split; [exact Hw|]. split; [exact HH|].
  split; [exact sample_routes_wf|].
  split; [exact sample_routes_no_ipv6_gateway|]. split; [exact Hlen|].
  exact (roundtrip_without_ipv6_gateway (E := host64) 0 42 7 sample_routes
           zero_mem Hw HH sample_routes_wf sample_routes_no_ipv6_gateway Hlen).
Defined.

(** X2 and [sample_routes] in a buffer of 41 octets, where [write] throws
    at the last record: the octet just behind the buffer is untouched. *)
Lemma write_stays_in_buffer_witness :
  0 <= HEADER_LENGTH (Envelope := host64) /\
  Forall wf_ip_route sample_routes /\
  (41 < HEADER_LENGTH (Envelope := host64) \/
   HEADER_LENGTH (Envelope := host64) + 4 <= 41) /\
  41 < 2 ^ w (Envelope := host64) /\
  (41 < 0 + HEADER_LENGTH (Envelope := host64) \/ 0 + 41 <= 41) /\
  fst (write_payload (E := host64) 0 41 7 sample_routes zero_mem) 41
    = zero_mem 41.
Proof.
  assert (HH : 0 <= HEADER_LENGTH (Envelope := host64)) by (simpl; lia).
  assert (Hcase : 41 < HEADER_LENGTH (Envelope := host64) \/
                  HEADER_LENGTH (Envelope := host64) + 4 <= 41)
    by (right; simpl; lia).
  assert (Hmax : 41 < 2 ^ w (Envelope := host64)) by reflexivity.
  assert (Hout : 41 < 0 + HEADER_LENGTH (Envelope := host64) \/ 0 + 41 <= 41)
    by (right; lia).
  split; [exact HH|]. split; [exact sample_routes_wf|].
  split; [exact Hcase|]. split; [exact Hmax|]. split; [exact Hout|].
  exact (write_stays_in_buffer (E := host64) 0 41 7 sample_routes zero_mem 41
           HH sample_routes_wf Hcase Hmax Hout).
Defined.

(** X3 one octet short: [sample_routes] need 42 octets, the buffer has 41. *)
Lemma write_payload_capacity_boundary_witness :
  3 <= w (Envelope := host64) /\
  0 <= HEADER_LENGTH (Envelope := host64) /\
  Forall wf_ip_route sample_routes /\
  (41 < HEADER_LENGTH (Envelope := host64) \/
   HEADER_LENGTH (Envelope := host64) + 4 <= 41) /\
  41 < 2 ^ w (Envelope := host64) /\
  4 + records_size sample_routes < 2 ^ w (Envelope := host64) /\
  snd (write_payload (E := host64) 0 41 7 sample_routes zero_mem) =
    if 41 <? HEADER_LENGTH (Envelope := host64) + 4
             + records_size sample_routes
    then Throw err_buf_len
    else Ok (4 + records_size sample_routes).
Proof.
  assert (Hw : 3 <= w (Envelope := host64)) by (simpl; lia).
  assert (HH : 0 <= HEADER_LENGTH (Envelope := host64)) by (simpl; lia).
  assert (Hcase : 41 < HEADER_LENGTH (Envelope := host64) \/
                  HEADER_LENGTH (Envelope := host64) + 4 <= 41)
    by (right; simpl; lia).
  assert (Hmax : 41 < 2 ^ w (Envelope := host64)) by reflexivity.
  assert (Hsize : 4 + records_size sample_routes < 2 ^ w (Envelope := host64))
    by reflexivity.
  split; [exact Hw|]. split; [exact HH|]. split; [exact sample_routes_wf|].
  split; [exact Hcase|]. split; [exact Hmax|]. split; [exact Hsize|].
  exact (write_payload_capacity_boundary (E := host64) 0 41 7 sample_routes
           zero_mem Hw HH sample_routes_wf Hcase Hmax Hsize).
Defined.

(** X4 with [r4] written and [r4g] refused, in a buffer of 23 octets. *)
Lemma write_keeps_earlier_records_witness :
  3 <= w (Envelope := host64) /\
  0 <= HEADER_LENGTH (Envelope := host64) /\
  Forall wf_ip_route ([r4] ++ r4g :: [r6]) /\
  HEADER_LENGTH (Envelope := host64) + 4 + records_size [r4] <= 23 /\
  23 < HEADER_LENGTH (Envelope := host64) + 4 + records_size [r4]
       + Z.of_nat (List.length (record_octets r4g)) /\
  23 < 2 ^ w (Envelope := host64) /\
  snd (write_payload (E := host64) 0 23 7 ([r4] ++ r4g :: [r6]) zero_mem)
    = Throw err_buf_len /\
  holds (fst (write_payload (E := host64) 0 23 7 ([r4] ++ r4g :: [r6])
                zero_mem))
    (0 + HEADER_LENGTH (Envelope := host64))
    ([octet (7 mod 2 ^ 32) 3; octet (7 mod 2 ^ 32) 2;
      octet (7 mod 2 ^ 32) 1; octet (7 mod 2 ^ 32) 0]
     ++ records_octets [r4]).
Proof.
  assert (Hw : 3 <= w (Envelope := host64)) by (simpl; lia).
  assert (HH : 0 <= HEADER_LENGTH (Envelope := host64)) by (simpl; lia).
  assert (Hfits : HEADER_LENGTH (Envelope := host64) + 4 + records_size [r4]
                  <= 23) by discriminate.
  assert (Hshort : 23 < HEADER_LENGTH (Envelope := host64) + 4
                        + records_size [r4]
                        + Z.of_nat (List.length (record_octets r4g)))
    by reflexivity.
  assert (Hmax : 23 < 2 ^ w (Envelope := host64)) by reflexivity.
  split; [exact Hw|]. split; [exact HH|]. split; [exact sample_routes_wf|].
  split; [exact Hfits|]. split; [exact Hshort|]. split; [exact Hmax|].
  exact (write_keeps_earlier_records (E := host64) 0 23 7 [r4] [r6] r4g
           zero_mem Hw HH sample_routes_wf Hfits Hshort Hmax).
Defined.

(** X5 on a payload that ends after the prefix length of an IPv4 record. *)
Lemma torn_record_throws_witness :
  1 <= 2 < 2 ^ w (Envelope := host64) /\
  ((torn_v4_payload 4 = INAT_IPV4 /\ 2 < 6) \/
   (torn_v4_payload 4 = INAT_IPV4_GATEWAY /\ 2 < 10) \/
   ((torn_v4_payload 4 = INAT_IPV6 \/ torn_v4_payload 4 = INAT_IPV6_GATEWAY)
    /\ 2 < 18)) /\
  routes_loop (E := host64) 1 torn_v4_payload (mk_reader 4 2) [r6]
    = Throw (if 2 =? 1 then err_prefix_length else err_ip_address).
Proof.
  assert (Hn : 1 <= 2 < 2 ^ w (Envelope := host64))
    by (split; [discriminate|reflexivity]).
  assert (Hcase :
            (torn_v4_payload 4 = INAT_IPV4 /\ 2 < 6) \/
            (torn_v4_payload 4 = INAT_IPV4_GATEWAY /\ 2 < 10) \/
            ((torn_v4_payload 4 = INAT_IPV6 \/
              torn_v4_payload 4 = INAT_IPV6_GATEWAY) /\ 2 < 18))
    by (left; split; reflexivity).
  split; [exact Hn|]. split; [exact Hcase|].
  exact (torn_record_throws (E := host64) 0%nat torn_v4_payload 4 2 [r6]
           Hn Hcase).
Defined.

(** X6 on the payload of [r4], against a memory that differs just behind
    it. *)
Lemma decoder_reads_only_the_payload_witness :
  4 <= length (base (fresh 0 10)) < 2 ^ w (Envelope := host64) /\
  (forall a,
     payload (base (fresh 0 10)) <= a
       < payload (base (fresh 0 10)) + length (base (fresh 0 10)) ->
     r4_payload a = upd r4_payload 10 9 a) /\
  version (E := host64) r4_payload (fresh 0 10)
    = version (E := host64) (upd r4_payload 10 9) (fresh 0 10) /\
  routes (E := host64) 2 r4_payload (fresh 0 10)
    = routes (E := host64) 2 (upd r4_payload 10 9) (fresh 0 10).
Proof.
  assert (Hlen : 4 <= length (base (fresh 0 10)) < 2 ^ w (Envelope := host64))
    by (split; [discriminate|reflexivity]).
  assert (Hagree : forall a,
             payload (base (fresh 0 10)) <= a
               < payload (base (fresh 0 10)) + length (base (fresh 0 10)) ->
             r4_payload a = upd r4_payload 10 9 a).
  { intros a Ha. cbn in Ha. unfold upd.
    destruct (Z.eqb_spec a 10) as [Heq|_]; [lia|reflexivity]. }
  split; [exact Hlen|]. split; [exact Hagree|].
  exact (decoder_reads_only_the_payload (E := host64) 2%nat r4_payload
           (upd r4_payload 10 9) (fresh 0 10) Hlen Hagree).
Defined.

(** X7 on the 38 octets of [sample_payload]. *)
Lemma routes_accounts_for_every_octet_witness :
  m_routes_cache (fresh 0 38) = None /\
  4 <= length (base (fresh 0 38)) < 2 ^ w (Envelope := host64) /\
  routes (E := host64) 4 sample_payload (fresh 0 38)
    = (mk_routes_message (mk_message 0 38) (Some sample_routes),
       Ok sample_routes) /\
  exists stream,
    sample_routes = insert_all stream [] /\
    4 + records_size stream = length (base (fresh 0 38)).
Proof.
  assert (Hlen : 4 <= length (base (fresh 0 38)) < 2 ^ w (Envelope := host64))
    by (split; [discriminate|reflexivity]).
  assert (Hr : routes (E := host64) 4 sample_payload (fresh 0 38)
               = (mk_routes_message (mk_message 0 38) (Some sample_routes),
                  Ok sample_routes)) by (vm_compute; reflexivity).
  split; [reflexivity|]. split; [exact Hlen|]. split; [exact Hr|].
  exact (routes_accounts_for_every_octet (E := host64) 4%nat sample_payload
           (fresh 0 38)
           (mk_routes_message (mk_message 0 38) (Some sample_routes))
           sample_routes eq_refl Hlen Hr).
Defined.

(** X8 on [sample_payload]: 34 octets of records, six reads at most. *)
Lemma routes_terminates_witness :
  0 <= w (Envelope := host64) /\
  (Z.to_nat (sz_sub (E := host64) (length (base (fresh 0 38))) 4 / 6) < 6)%nat /\
  snd (routes (E := host64) 6 sample_payload (fresh 0 38)) <> Timeout /\
  routes (E := host64) (6 + 3) sample_payload (fresh 0 38)
    = routes (E := host64) 6 sample_payload (fresh 0 38).
Proof.
  assert (Hw : 0 <= w (Envelope := host64)) by discriminate.
  assert (Hfuel : (Z.to_nat (sz_sub (E := host64)
                               (length (base (fresh 0 38))) 4 / 6) < 6)%nat)
    by (apply Nat.ltb_lt; vm_compute; reflexivity).
  split; [exact Hw|]. split; [exact Hfuel|].
  exact (routes_terminates (E := host64) 6%nat 3%nat sample_payload
           (fresh 0 38) Hw Hfuel).
Defined.

(** X9 with a version that needs 33 bits and a buffer in which [write]
    throws at the second record. *)
Lemma version_written_big_endian_witness :
  0 <= HEADER_LENGTH (Envelope := host64) /\
  Forall wf_ip_route sample_routes /\
  HEADER_LENGTH (Envelope := host64) + 4 <= 23 < 2 ^ w (Envelope := host64) /\
  payload (base (fresh 4 19)) = 0 + HEADER_LENGTH (Envelope := host64) /\
  holds (fst (write_payload (E := host64) 0 23 4294967303 sample_routes
                zero_mem))
    (0 + HEADER_LENGTH (Envelope := host64))
    [octet (4294967303 mod 2 ^ 32) 3; octet (4294967303 mod 2 ^ 32) 2;
     octet (4294967303 mod 2 ^ 32) 1; octet (4294967303 mod 2 ^ 32) 0] /\
  version (E := host64)
    (fst (write_payload (E := host64) 0 23 4294967303 sample_routes zero_mem))
    (fresh 4 19) = 4294967303 mod 2 ^ 32.
Proof.
  assert (HH : 0 <= HEADER_LENGTH (Envelope := host64)) by discriminate.
  assert (Hlen : HEADER_LENGTH (Envelope := host64) + 4 <= 23
                 < 2 ^ w (Envelope := host64))
    by (split; [discriminate|reflexivity]).
  split; [exact HH|]. split; [exact sample_routes_wf|].
  split; [exact Hlen|]. split; [reflexivity|].
  exact (version_written_big_endian (E := host64) 0 23 4294967303
           sample_routes zero_mem (fresh 4 19) HH sample_routes_wf Hlen
           eq_refl).
Defined.

(** X11 on a payload whose record starts with the octet 9. *)
Lemma routes_throws_only_decode_errors_witness :
  routes (E := host64) 1 bad_tag_payload (fresh 0 5)
    = (fresh 0 5, Throw err_unknown_type) /\
  (TruncatedRecord err_unknown_type \/ UnknownRecordType err_unknown_type) /\
  m_routes_cache (fresh 0 5) = None.
Proof.
  assert (Hr : routes (E := host64) 1 bad_tag_payload (fresh 0 5)
               = (fresh 0 5, Throw err_unknown_type))
    by (vm_compute; reflexivity).
  split; [exact Hr|].
  exact (routes_throws_only_decode_errors (E := host64) 1%nat bad_tag_payload
           (fresh 0 5) (fresh 0 5) err_unknown_type Hr).
Defined.

(** X12 on a buffer of three octets, smaller than the header. *)
Lemma write_payload_throws_only_buf_len_witness :
  write_payload (E := host64) 0 3 7 sample_routes zero_mem
    = (zero_mem, Throw err_buf_len) /\
  BufferTooSmall err_buf_len.
Proof.
  assert (Hthrow : write_payload (E := host64) 0 3 7 sample_routes zero_mem
                   = (zero_mem, Throw err_buf_len)) by reflexivity.
  split; [exact Hthrow|].
  exact (write_payload_throws_only_buf_len (E := host64) 0 3 7 sample_routes
           zero_mem zero_mem err_buf_len Hthrow).
Defined.

(** X13 on [sample_payload] and its second route. *)
Lemma decoded_routes_are_well_formed_witness :
  octets sample_payload /\
  m_routes_cache (fresh 0 38) = None /\
  0 <= w (Envelope := host64) /\
  routes (E := host64) 4 sample_payload (fresh 0 38)
    = (mk_routes_message (mk_message 0 38) (Some sample_routes),
       Ok sample_routes) /\
  In r4g sample_routes /\
  wf_ip_route r4g.
Proof.
  assert (Hw : 0 <= w (Envelope := host64)) by discriminate.
  assert (Hr : routes (E := host64) 4 sample_payload (fresh 0 38)
               = (mk_routes_message (mk_message 0 38) (Some sample_routes),
                  Ok sample_routes)) by (vm_compute; reflexivity).
  assert (Hin : In r4g sample_routes) by (right; left; reflexivity).
  split; [exact sample_payload_octets|]. split; [reflexivity|].
  split; [exact Hw|]. split; [exact Hr|]. split; [exact Hin|].
  exact (decoded_routes_are_well_formed (E := host64) 4%nat sample_payload
           (fresh 0 38)
           (mk_routes_message (mk_message 0 38) (Some sample_routes))
           sample_routes r4g sample_payload_octets eq_refl Hw Hr Hin).
Defined.

(** X10 on 10.0.0.0 with the prefix length 280: it comes back as
    10.0.0.0/24. *)
Lemma prefix_length_comes_back_mod_256_witness :
  3 <= w (Envelope := host64) /\
  0 <= HEADER_LENGTH (Envelope := host64) /\
  wf_ip_route
    (make_ip_route address_v4 (with_prefix_length r4_wide (280 mod 256))) /\
  ~ ipv6_with_gateway
      (make_ip_route address_v4 (with_prefix_length r4_wide (280 mod 256))) /\
  HEADER_LENGTH (Envelope := host64) + 4
    + records_size
        [make_ip_route address_v4 (with_prefix_length r4_wide (280 mod 256))]
    <= 14 < 2 ^ w (Envelope := host64) /\
  exists m',
    write_payload (E := host64) 0 14 1
      [make_ip_route address_v4 (with_prefix_length r4_wide 280)] zero_mem
    = (m', Ok (4 + records_size
                     [make_ip_route address_v4
                        (with_prefix_length r4_wide (280 mod 256))])) /\
    forall extra,
      snd (routes (E := host64) (2 + extra) m'
             (fresh (0 + HEADER_LENGTH (Envelope := host64))
                (4 + records_size
                       [make_ip_route address_v4
                          (with_prefix_length r4_wide (280 mod 256))])))
      = Ok [make_ip_route address_v4
              (with_prefix_length r4_wide (280 mod 256))].
Proof.
  assert (Hw : 3 <= w (Envelope := host64)) by discriminate.
  assert (HH : 0 <= HEADER_LENGTH (Envelope := host64)) by discriminate.
  assert (Hwf : wf_ip_route
                  (make_ip_route address_v4
                     (with_prefix_length r4_wide (280 mod 256))))
    by exact (Forall_inv sample_routes_wf).
  assert (Hno : ~ ipv6_with_gateway
                    (make_ip_route address_v4
                       (with_prefix_length r4_wide (280 mod 256))))
    by (cbn; auto).
  assert (Hlen : HEADER_LENGTH (Envelope := host64) + 4
                 + records_size
                     [make_ip_route address_v4
                        (with_prefix_length r4_wide (280 mod 256))]
                 <= 14 < 2 ^ w (Envelope := host64))
    by (split; [discriminate|reflexivity]).
  split; [exact Hw|]. split; [exact HH|]. split; [exact Hwf|].
  split; [exact Hno|]. split; [exact Hlen|].
  exact (prefix_length_comes_back_mod_256 (E := host64) 0 14 1 address_v4
           r4_wide 280 zero_mem Hw HH Hwf Hno Hlen).
Defined.

Lemma r6g_wf : Forall wf_ip_route [r6g].
Proof.
  unfold r6g, a6_net, a6_gw. constructor; [wf_sample_route|constructor].
Qed.

(** X14 on an IPv6 route with a gateway, in a buffer of exactly 42
    octets. *)
Lemma write_payload_layout_witness :
  3 <= w (Envelope := host64) /\
  0 <= HEADER_LENGTH (Envelope := host64) /\
  Forall wf_ip_route [r6g] /\
  HEADER_LENGTH (Envelope := host64) + 4 + records_size [r6g] <= 42
    < 2 ^ w (Envelope := host64) /\
  exists m',
    write_payload (E := host64) 0 42 7 [r6g] zero_mem
      = (m', Ok (4 + records_size [r6g])) /\
    holds m' (0 + HEADER_LENGTH (Envelope := host64))
      ([octet (7 mod 2 ^ 32) 3; octet (7 mod 2 ^ 32) 2;
        octet (7 mod 2 ^ 32) 1; octet (7 mod 2 ^ 32) 0]
       ++ records_octets [r6g]) /\
    forall a,
      a < 0 + HEADER_LENGTH (Envelope := host64) \/
      0 + HEADER_LENGTH (Envelope := host64) + 4 + records_size [r6g] <= a ->
      m' a = zero_mem a.
Proof.
  assert (Hw : 3 <= w (Envelope := host64)) by discriminate.
  assert (HH : 0 <= HEADER_LENGTH (Envelope := host64)) by discriminate.
  assert (Hlen : HEADER_LENGTH (Envelope := host64) + 4 + records_size [r6g]
                 <= 42 < 2 ^ w (Envelope := host64))
    by (split; [discriminate|reflexivity]).
  split; [exact Hw|]. split; [exact HH|]. split; [exact r6g_wf|].
  split; [exact Hlen|].
  exact (write_payload_layout (E := host64) 0 42 7 [r6g] zero_mem
           Hw HH r6g_wf Hlen).
Defined.

(** X15 on [sample_routes], with fuel for four reads. *)
Lemma constructed_over_written_payload_witness :
  3 <= w (Envelope := host64) /\
  0 <= HEADER_LENGTH (Envelope := host64) /\
  Forall wf_ip_route sample_routes /\
  Forall (fun r => ~ ipv6_with_gateway r) sample_routes /\
  HEADER_LENGTH (Envelope := host64) + 4 + records_size sample_routes <= 42
    < 2 ^ w (Envelope := host64) /\
  (List.length sample_routes < 4)%nat /\
  exists m' msg rs,
    write_payload (E := host64) 0 42 7 sample_routes zero_mem
      = (m', Ok (4 + records_size sample_routes)) /\
    routes_message_of_message (E := host64) 4 m'
      (mk_message (0 + HEADER_LENGTH (Envelope := host64))
         (4 + records_size sample_routes))
      = Ok msg /\
    same_set rs sample_routes /\
    forall fuel' m'', routes (E := host64) fuel' m'' msg = (msg, Ok rs).
Proof.
  assert (Hw : 3 <= w (Envelope := host64)) by discriminate.
  assert (HH : 0 <= HEADER_LENGTH (Envelope := host64)) by discriminate.
  assert (Hlen : HEADER_LENGTH (Envelope := host64) + 4
                 + records_size sample_routes <= 42
                 < 2 ^ w (Envelope := host64))
    by (split; [discriminate|reflexivity]).
  assert (Hfuel : (List.length sample_routes < 4)%nat)
    by (apply Nat.ltb_lt; reflexivity).
  split; [exact Hw|]. split; [exact HH|]. split; [exact sample_routes_wf|].
  split; [exact sample_routes_no_ipv6_gateway|]. split; [exact Hlen|].
  split; [exact Hfuel|].
  exact (constructed_over_written_payload (E := host64) 0 42 7 sample_routes
           zero_mem 4%nat Hw HH sample_routes_wf
           sample_routes_no_ipv6_gateway Hlen Hfuel).
Defined.

